(** * jijinalllist.py: fund catalogue with latest net asset value

    A shallow embedding of [get_fund_list], [fetch_latest_nav] and [main] of
    [src/jijinalllist.py], and the properties its specification states about
    them.

    The script names [ak] (the market-data provider module) and [pd] (the
    data-frame library) without binding them in the file, so both are taken
    as parameters here: the provider as a record of what its functions
    answer, and of [pd] the two column coercions [pd.to_datetime] and
    [pd.to_numeric] and the rendering of a cell as text.  Data frames are
    modelled row by row: a list of column labels and a list of rows of
    cells, with the frame operations the script uses written out on them.
    Exceptions are values of an error monad; printing and the pause
    between two provider calls are left out.  What the end of [main] asks
    of the operating system and of the sheet writer is a third parameter. *)

From Stdlib Require Import List String Ascii ZArith Lia Bool Arith.
From Stdlib Require Import Sorting.Permutation Sorting.Sorted.
From Stdlib Require Import SpecFloat.
Import ListNotations.

Local Open Scope string_scope.
Local Open Scope list_scope.

(** ** Python values and exceptions *)

(** A [pandas] timestamp: nanoseconds since 1970-01-01T00:00:00. *)
Definition Timestamp := Z.

(** The cells a frame holds.  [VNone] is Python's [None], [VNaT] the missing
    timestamp; the missing number is [VFloat S754_nan]. *)
Inductive value : Type :=
| VNone
| VNaT
| VStr (s : string)
| VInt (z : Z)
| VFloat (f : spec_float)
| VTime (t : Timestamp).

(** What [get_fund_list] puts in its two [RuntimeError]s. *)
Inductive config_error : Type :=
| NoProviderFunction (candidates : list string)
| NoCodeColumn (actual : list string).

(** Exceptions.  [RuntimeError] is what the script raises itself; whatever a
    call into the provider or a coercion raises is a [LibraryError]. *)
Inductive exn : Type :=
| RuntimeError (why : config_error)
| LibraryError
| KeyError (label : string)
| IndexError
| ValueError
| TypeError
| AttributeError.

Inductive result (A : Type) : Type :=
| Ok (a : A)
| Raise (e : exn).
Arguments Ok {A} a.
Arguments Raise {A} e.

Definition bind {A B : Type} (m : result A) (k : A -> result B) : result B :=
  match m with
  | Ok a => k a
  | Raise e => Raise e
  end.

Notation "x <- m ;; k" := (bind m (fun x => k))
  (at level 61, m at next level, right associativity).
Notation "' pat <- m ;; k" := (bind m (fun x => match x with pat => k end))
  (at level 61, pat pattern, m at next level, right associativity).

(** What a call into a library does: it returns, or it raises something of
    the library's own. *)
Inductive response (A : Type) : Type :=
| Returns (a : A)
| Fails.
Arguments Returns {A} a.
Arguments Fails {A}.

Definition call {A : Type} (r : response A) : result A :=
  match r with
  | Returns a => Ok a
  | Fails => Raise LibraryError
  end.

(** ** Strings *)

(** Python's [needle in hay] on strings.  Labels are UTF-8 byte strings; a
    well-formed UTF-8 needle occurs at a byte offset exactly when it occurs
    at a code-point offset. *)
Fixpoint contains (needle hay : string) : bool :=
  if String.prefix needle hay then true
  else match hay with
       | EmptyString => false
       | String _ rest => contains needle rest
       end.

Definition mem (s : string) (l : list string) : bool :=
  existsb (String.eqb s) l.

Fixpoint zeros (n : nat) : string :=
  match n with
  | O => EmptyString
  | S k => String "0" (zeros k)
  end.

(** A byte of the form 10xxxxxx: in UTF-8 it continues a character, every
    other byte starts one. *)
Definition is_continuation (c : ascii) : bool :=
  match c with
  | Ascii _ _ _ _ _ _ b6 b7 => b7 && negb b6
  end.

(** [len(s)] for a Python string: the number of characters (code points)
    of the text whose UTF-8 bytes [s] holds. *)
Fixpoint char_length (s : string) : nat :=
  match s with
  | EmptyString => O
  | String c rest => (if is_continuation c then 0 else 1) + char_length rest
  end.

(** [str.zfill(width)], which [Series.str.zfill] applies cell by cell: zeros
    go after a leading sign, and a string of [width] characters or more is
    returned as it is. *)
Definition zfill (width : nat) (s : string) : string :=
  let pad := zeros (width - char_length s) in
  match s with
  | String c rest =>
      if (Ascii.eqb c "+" || Ascii.eqb c "-")%bool
      then String c (pad ++ rest)
      else pad ++ s
  | EmptyString => pad
  end.

Example contains_demo :
  contains "代码" "证券代码" = true /\ contains "代码" "基金简称" = false.
Proof. split; reflexivity. Qed.

Example zfill_demo :
  zfill 6 "123" = "000123" /\ zfill 6 "1234567" = "1234567" /\ zfill 6 "-12" = "-00012".
Proof. repeat split; reflexivity. Qed.

Example zfill_counts_characters :
  String.length "基金" = 6%nat /\ char_length "基金" = 2%nat /\ zfill 6 "基金" = "0000基金".
Proof. repeat split; reflexivity. Qed.

Local Open Scope Z_scope.

(** Decimal digits of a natural number below [10 ^ width], zero-padded. *)
Fixpoint digits (width : nat) (n : Z) : string :=
  match width with
  | O => EmptyString
  | S w => digits w (n / 10) ++ String (ascii_of_nat (48 + Z.to_nat (n mod 10))%nat) EmptyString
  end.

(** [str(z)] for a Python integer. *)
Fixpoint nat_digits (fuel : nat) (n : Z) : string :=
  match fuel with
  | O => EmptyString
  | S k => if n <? 10 then digits 1 n else nat_digits k (n / 10) ++ digits 1 n
  end.

Definition str_of_int (z : Z) : string :=
  if z <? 0 then String "-" (nat_digits (S (Z.to_nat (Z.log2 (- z)))) (- z))
  else nat_digits (S (Z.to_nat (Z.log2 z))) z.

(** ** Timestamps *)

Definition ns_per_second : Z := 1000000000.
Definition ns_per_day : Z := 86400 * ns_per_second.

(** Year, month and day of a day count since 1970-01-01 (proleptic
    Gregorian calendar, as [pandas] uses). *)
Definition civil_from_days (days : Z) : Z * Z * Z :=
  let z := days + 719468 in
  let era := z / 146097 in
  let doe := z mod 146097 in
  let yoe := (doe - doe / 1460 + doe / 36524 - doe / 146096) / 365 in
  let doy := doe - (365 * yoe + yoe / 4 - yoe / 100) in
  let mp := (5 * doy + 2) / 153 in
  let d := doy - (153 * mp + 2) / 5 + 1 in
  let m := if mp <? 10 then mp + 3 else mp - 9 in
  let y := yoe + era * 400 + (if m <=? 2 then 1 else 0) in
  (y, m, d).

(** [t.strftime("%Y-%m-%d")]. *)
Definition strftime_date (t : Timestamp) : string :=
  let '(y, m, d) := civil_from_days (t / ns_per_day) in
  digits 4 y ++ "-" ++ digits 2 m ++ "-" ++ digits 2 d.

(** [t.strftime("%Y-%m-%d %H:%M:%S")]. *)
Definition strftime_datetime (t : Timestamp) : string :=
  let s := (t mod ns_per_day) / ns_per_second in
  strftime_date t ++ " " ++ digits 2 (s / 3600) ++ ":" ++ digits 2 (s / 60 mod 60)
    ++ ":" ++ digits 2 (s mod 60).

(** Day count of a calendar date, to write timestamps down in examples. *)
Definition days_from_civil (y m d : Z) : Z :=
  let y' := if m <=? 2 then y - 1 else y in
  let era := y' / 400 in
  let yoe := y' mod 400 in
  let doy := (153 * (if m >? 2 then m - 3 else m + 9) + 2) / 5 + d - 1 in
  let doe := yoe * 365 + yoe / 4 - yoe / 100 + doy in
  era * 146097 + doe - 719468.

Definition at_date (y m d : Z) : Timestamp := days_from_civil y m d * ns_per_day.

Example strftime_demo :
  strftime_date (at_date 2024 2 29) = "2024-02-29" /\
  strftime_date 0 = "1970-01-01" /\
  strftime_datetime (at_date 2023 12 31 + 86399 * ns_per_second) = "2023-12-31 23:59:59" /\
  str_of_int 1024 = "1024" /\ str_of_int (-7) = "-7" /\ str_of_int 0 = "0".
Proof. repeat split; vm_compute; reflexivity. Qed.

Local Close Scope Z_scope.

(** ** Data frames *)

Definition row := list value.

Record DataFrame : Type := {
  columns : list string;
  rows : list row
}.

(** [len(df)]. *)
Definition len (df : DataFrame) : nat := List.length (rows df).

(** Every row has one cell per column. *)
Definition wf_frame (df : DataFrame) : bool :=
  forallb (fun r => List.length r =? List.length (columns df))%nat (rows df).

(** Positions of the columns labelled [c], counted from [i]. *)
Fixpoint positions_from (i : nat) (c : string) (cols : list string) : list nat :=
  match cols with
  | [] => []
  | l :: rest =>
      if String.eqb l c then i :: positions_from (S i) c rest
      else positions_from (S i) c rest
  end.

Definition positions (c : string) (cols : list string) : list nat :=
  positions_from 0 c cols.

Definition cell (i : nat) (r : row) : value := nth i r VNone.

(** [df[c]] used as a series.  With a repeated label [df[c]] is a frame, and
    each consumer in the script ([pd.to_datetime], [pd.to_numeric], [.str],
    [.tolist()], assignment to one column) raises on a frame: that is the
    [TypeError] here. *)
Definition getitem (df : DataFrame) (c : string) : result (list value) :=
  match positions c (columns df) with
  | [] => Raise (KeyError c)
  | [i] => Ok (map (cell i) (rows df))
  | _ => Raise TypeError
  end.

(** One row of [df[c] = vals]: the cell under every column labelled [c]. *)
Fixpoint set_cells (c : string) (v : value) (cols : list string) (r : row) : row :=
  match cols, r with
  | l :: cols', x :: r' => (if String.eqb l c then v else x) :: set_cells c v cols' r'
  | _, _ => r
  end.

(** [df[c] = vals] for a list or series [vals]: an existing column is
    overwritten in place, a new one is appended on the right; a length
    other than [len(df)] raises. *)
Definition setitem (df : DataFrame) (c : string) (vals : list value) : result DataFrame :=
  if (List.length vals =? len df)%nat then
    if mem c (columns df) then
      Ok {| columns := columns df;
            rows := map (fun rv => set_cells c (snd rv) (columns df) (fst rv))
                        (combine (rows df) vals) |}
    else
      Ok {| columns := columns df ++ [c];
            rows := map (fun rv => fst rv ++ [snd rv]) (combine (rows df) vals) |}
  else Raise ValueError.

(** [df[c] = v] for a scalar [v]. *)
Definition setitem_scalar (df : DataFrame) (c : string) (v : value) : result DataFrame :=
  setitem df c (repeat v (len df)).

(** A Python dict from labels to labels, in insertion order. *)
Definition dict := list (string * string).

Fixpoint dict_get (d : dict) (k : string) : option string :=
  match d with
  | [] => None
  | (k', v) :: rest => if String.eqb k' k then Some v else dict_get rest k
  end.

Fixpoint dict_set (d : dict) (k v : string) : dict :=
  match d with
  | [] => [(k, v)]
  | (k', v') :: rest =>
      if String.eqb k' k then (k', v) :: rest else (k', v') :: dict_set rest k v
  end.

(** [df.rename(columns=m)]: labels that are keys of [m] are replaced. *)
Definition rename (m : dict) (df : DataFrame) : DataFrame :=
  {| columns := map (fun c => match dict_get m c with Some c' => c' | None => c end)
                    (columns df);
     rows := rows df |}.

(** [df[keep]] for a list of labels all present in [df]: for each label in
    turn, every column that carries it. *)
Definition select (keep : list string) (df : DataFrame) : DataFrame :=
  let idx := flat_map (fun c => positions c (columns df)) keep in
  {| columns := map (fun i => nth i (columns df) "") idx;
     rows := map (fun r => map (fun i => cell i r) idx) (rows df) |}.

(** [pd.isna] on one cell. *)
Definition isna (v : value) : bool :=
  match v with
  | VNone | VNaT | VFloat S754_nan => true
  | _ => false
  end.

(** [df.dropna(subset=subset)]: rows with a missing cell under one of the
    labels of [subset] go. *)
Definition dropna (subset : list string) (df : DataFrame) : DataFrame :=
  let idx := flat_map (fun c => positions c (columns df)) subset in
  {| columns := columns df;
     rows := filter (fun r => forallb (fun i => negb (isna (cell i r))) idx) (rows df) |}.

(** The key [sort_values] orders a cell by.  The script sorts one column
    only, right after [pd.to_datetime] made it a timestamp column and
    [dropna] removed its missing cells.  (When the date and the value are
    the same column, [pd.to_numeric] has overwritten it; the row picked
    after sorting then has no [strftime], whatever the order.) *)
Definition sort_key (v : value) : Z :=
  match v with
  | VTime t => t
  | _ => 0%Z
  end.

Fixpoint insert_row (i : nat) (r : row) (sorted : list row) : list row :=
  match sorted with
  | [] => [r]
  | r' :: rest =>
      if (sort_key (cell i r) <? sort_key (cell i r'))%Z then r :: sorted
      else r' :: insert_row i r rest
  end.

(** [df.sort_values(by)], ascending, for a label the frame has.  Rows with
    equal keys keep their order here; pandas' default sort promises no
    order among them, and no property below depends on it. *)
Definition sort_values (by_ : string) (df : DataFrame) : DataFrame :=
  match positions by_ (columns df) with
  | i :: _ =>
      {| columns := columns df;
         rows := fold_left (fun acc r => insert_row i r acc) (rows df) [] |}
  | [] => df
  end.

(** [df.head(n)]. *)
Definition head (n : nat) (df : DataFrame) : DataFrame :=
  {| columns := columns df; rows := firstn n (rows df) |}.

(** [df.iloc[-1]]. *)
Definition iloc_last (df : DataFrame) : result row :=
  match rows df with
  | [] => Raise IndexError
  | r :: rest => Ok (last rest r)
  end.

(** [row[c]] on a row taken out of [df]. *)
Definition row_get (df : DataFrame) (r : row) (c : string) : result value :=
  match positions c (columns df) with
  | [] => Raise (KeyError c)
  | [i] => Ok (cell i r)
  | _ => Raise TypeError
  end.

Definition float_eqb (a b : spec_float) : bool :=
  match a, b with
  | S754_zero s, S754_zero s' => Bool.eqb s s'
  | S754_infinity s, S754_infinity s' => Bool.eqb s s'
  | S754_nan, S754_nan => true
  | S754_finite s m e, S754_finite s' m' e' =>
      Bool.eqb s s' && Pos.eqb m m' && Z.eqb e e'
  | _, _ => false
  end.

Definition value_eqb (a b : value) : bool :=
  match a, b with
  | VNone, VNone | VNaT, VNaT => true
  | VStr s, VStr s' => String.eqb s s'
  | VInt z, VInt z' => Z.eqb z z'
  | VFloat f, VFloat f' => float_eqb f f'
  | VTime t, VTime t' => Z.eqb t t'
  | _, _ => false
  end.

(** The rows of [rs] whose key cell is not in [seen] and not the key of an
    earlier row of [rs]. *)
Fixpoint drop_dups (i : nat) (seen : list value) (rs : list row) : list row :=
  match rs with
  | [] => []
  | r :: rest =>
      if existsb (value_eqb (cell i r)) seen then drop_dups i seen rest
      else r :: drop_dups i (cell i r :: seen) rest
  end.

(** [df.drop_duplicates(subset=[c]).reset_index(drop=True)] for a label [c]
    that names one column (the script calls it right after writing that
    column): of the rows that agree on [c] the first stays.  Rows are
    addressed by position here, so resetting the index changes nothing. *)
Definition drop_duplicates (c : string) (df : DataFrame) : DataFrame :=
  match positions c (columns df) with
  | i :: _ => {| columns := columns df; rows := drop_dups i [] (rows df) |}
  | [] => df
  end.

(** ** The two libraries the script calls *)

(** The provider module [ak].  [ak_attr name] is [None] when the module has
    no attribute [name] ([hasattr] is false), and otherwise what calling it
    without arguments does.  [fund_open_fund_info_em symbol] is the call
    [ak.fund_open_fund_info_em(symbol=symbol, indicator="单位净值走势")]: it
    raises, returns [None], or returns a frame. *)
Record akshare : Type := {
  ak_attr : string -> option (response DataFrame);
  fund_open_fund_info_em : value -> response (option DataFrame)
}.

(** What the script uses of [pd] beyond frames.  The two coercions are
    called with [errors="coerce"]: a cell that does not parse becomes a
    missing timestamp ([None] here) or a NaN; they can still raise.
    [str_other] is how [astype(str)] renders a cell that is neither a string
    nor an integer. *)
Record pandas : Type := {
  to_datetime : list value -> response (list (option Timestamp));
  to_numeric : list value -> response (list spec_float);
  str_other : value -> string
}.

(** What the script uses of the operating system and of the spreadsheet
    writer (lines 12-23 and 141-144).  Paths are joined and split as the
    platform does it; [makedirs dir] is [os.makedirs(dir, exist_ok=True)];
    [to_excel path sheet df] opens [pd.ExcelWriter(path, engine="openpyxl")],
    writes [df] without its index to the sheet and closes the writer.  Each
    of the two either returns or raises. *)
Record platform : Type := {
  getenv : string -> option string;
  path_join : string -> string -> string;
  dirname : string -> string;
  makedirs : string -> response unit;
  to_excel : string -> string -> DataFrame -> response unit
}.

Definition of_datetime (d : option Timestamp) : value :=
  match d with
  | Some t => VTime t
  | None => VNaT
  end.

(** ** Module constants *)

Definition TOP_N : nat := 1000.

Definition candidates : list string :=
  ["fund_name_em"; "fund_em_fund_name"; "fund_open_fund_name_em"].

Definition canonical_columns : list string :=
  ["基金代码"; "基金名称"; "基金类型"; "基金全称"; "基金公司"; "成立日期"].

(** ** The script *)

Section Script.

Variable ak : akshare.
Variable pd : pandas.

(** [series.astype(str)] on one cell. *)
Definition astype_str (v : value) : string :=
  match v with
  | VStr s => s
  | VInt z => str_of_int z
  | _ => str_other pd v
  end.

(** The probing loop of [get_fund_list]: the first candidate the module has. *)
Fixpoint probe (names : list string) : option (response DataFrame) :=
  match names with
  | [] => None
  | name :: rest =>
      match ak_attr ak name with
      | Some func => Some func
      | None => probe rest
      end
  end.

(** The [if]/[elif] chain that decides the canonical label of a column. *)
Definition canonical (c : string) : option string :=
  if mem c ["基金代码"; "代码"] then Some "基金代码"
  else if mem c ["基金简称"; "简称"; "基金名称"; "名称"] then Some "基金名称"
  else if mem c ["基金类型"; "类型"] then Some "基金类型"
  else if mem c ["基金全称"; "全称"] then Some "基金全称"
  else if mem c ["基金公司"; "公司"] then Some "基金公司"
  else if mem c ["成立日期"; "成立日"] then Some "成立日期"
  else None.

(** The loop that fills [rename_map]. *)
Fixpoint build_rename_map (cols : list string) (rename_map : dict) : dict :=
  match cols with
  | [] => rename_map
  | c :: rest =>
      build_rename_map rest
        (match canonical c with
         | Some c' => dict_set rename_map c c'
         | None => rename_map
         end)
  end.

(** Lines 47-65: the provider's frame with its columns renamed. *)
Definition normalize_columns (df : DataFrame) : DataFrame :=
  rename (build_rename_map (columns df) []) df.

(** Lines 67-72: make sure there is a column "基金代码". *)
Definition ensure_code_column (df : DataFrame) : result DataFrame :=
  if negb (mem "基金代码" (columns df)) then
    match find (contains "代码") (columns df) with
    | None => Raise (RuntimeError (NoCodeColumn (columns df)))
    | Some code_col => Ok (rename [(code_col, "基金代码")] df)
    end
  else Ok df.

(** Lines 74-76: make sure there is a column "基金名称". *)
Definition ensure_name_column (df : DataFrame) : result DataFrame :=
  if negb (mem "基金名称" (columns df)) then
    match find (fun c => contains "简称" c || contains "名称" c) (columns df) with
    | Some name_col => s <- getitem df name_col ;; setitem df "基金名称" s
    | None => setitem_scalar df "基金名称" (VStr "")
    end
  else Ok df.

(** Lines 78-79: the canonical columns the frame has, in canonical order. *)
Definition keep_columns (df : DataFrame) : DataFrame :=
  let keep := filter (fun c => mem c (columns df)) canonical_columns in
  select keep df.

(** Lines 26-79: everything before the identifiers are rewritten. *)
Definition catalog_columns : result DataFrame :=
  match probe candidates with
  | None => Raise (RuntimeError (NoProviderFunction candidates))
  | Some func =>
      df <- call func ;;
      df <- ensure_code_column (normalize_columns df) ;;
      df <- ensure_name_column df ;;
      Ok (keep_columns df)
  end.

(** Lines 81-82: identifiers as zero-filled strings, duplicates dropped. *)
Definition normalize_codes (df : DataFrame) : result DataFrame :=
  s <- getitem df "基金代码" ;;
  df <- setitem df "基金代码" (map (fun v => VStr (zfill 6 (astype_str v))) s) ;;
  Ok (drop_duplicates "基金代码" df).

Definition get_fund_list : result DataFrame :=
  df <- catalog_columns ;;
  normalize_codes df.

(** [dfn.columns[i]] unless the frame has a column [preferred]. *)
Definition column_or (dfn : DataFrame) (preferred : string) (i : nat) : result string :=
  if mem preferred (columns dfn) then Ok preferred
  else match nth_error (columns dfn) i with
       | Some c => Ok c
       | None => Raise IndexError
       end.

(** [v.strftime("%Y-%m-%d")]: only a timestamp has the method. *)
Definition py_strftime (v : value) : result string :=
  match v with
  | VTime t => Ok (strftime_date t)
  | _ => Raise AttributeError
  end.

(** [float(v)] on a cell of a column written by [pd.to_numeric]. *)
Definition py_float (v : value) : result spec_float :=
  match v with
  | VFloat f => Ok f
  | _ => Raise TypeError
  end.

(** Lines 96-101: choose the date and value columns and coerce them. *)
Definition coerce_series (dfn : DataFrame) : result (DataFrame * string * string) :=
  date_col <- column_or dfn "净值日期" 0 ;;
  nav_col <- column_or dfn "单位净值" 1 ;;
  s <- getitem dfn date_col ;;
  dates <- call (to_datetime pd s) ;;
  dfn <- setitem dfn date_col (map of_datetime dates) ;;
  s <- getitem dfn nav_col ;;
  navs <- call (to_numeric pd s) ;;
  dfn <- setitem dfn nav_col (map VFloat navs) ;;
  Ok (dfn, date_col, nav_col).

(** Lines 102-108: drop the rows that did not parse, sort by date, and
    take the last row. *)
Definition latest_row (dfn : DataFrame) (date_col nav_col : string)
  : result (option string * option spec_float) :=
  let dfn := sort_values date_col (dropna [date_col; nav_col] dfn) in
  if (len dfn =? 0)%nat then Ok (None, None)
  else
    last <- iloc_last dfn ;;
    d <- row_get dfn last date_col ;;
    date <- py_strftime d ;;
    v <- row_get dfn last nav_col ;;
    nav <- py_float v ;;
    Ok (Some date, Some nav).

(** The body of the [try] of [fetch_latest_nav]. *)
Definition fetch_latest_nav_try (symbol : value)
  : result (option string * option spec_float) :=
  dfn <- call (fund_open_fund_info_em ak symbol) ;;
  match dfn with
  | None => Ok (None, None)
  | Some dfn =>
      if (len dfn =? 0)%nat then Ok (None, None)
      else
        '(dfn, date_col, nav_col) <- coerce_series dfn ;;
        latest_row dfn date_col nav_col
  end.

(** [except Exception: return None, None]. *)
Definition fetch_latest_nav (symbol : value) : option string * option spec_float :=
  match fetch_latest_nav_try symbol with
  | Ok answer => answer
  | Raise _ => (None, None)
  end.

(** What a run of [main] leaves behind: the symbols it asked the provider
    about, in the order of the calls, and the table it hands to [to_excel]. *)
Record run : Type := {
  requested : list value;
  exported : DataFrame
}.

(** A cell of the column a Python list of strings and [None] makes: a
    column of objects, in which [None] stays [None]. *)
Definition of_date_string (d : option string) : value :=
  match d with
  | Some s => VStr s
  | None => VNone
  end.

(** The column [df[c] = vals] makes of a Python list of floats and [None].
    pandas infers the type of the column from the list: with a float in it
    the column is float64 and every [None] is stored as NaN; a list of
    [None] only stays a column of objects, each of them [None]. *)
Definition has_float (vals : list (option spec_float)) : bool :=
  existsb (fun v => match v with Some _ => true | None => false end) vals.

Definition float_cell (float64 : bool) (v : option spec_float) : value :=
  match v with
  | Some f => VFloat f
  | None => if float64 then VFloat S754_nan else VNone
  end.

Definition float_column (vals : list (option spec_float)) : list value :=
  map (float_cell (has_float vals)) vals.

(** The [for] loop of [main] over the identifiers still to visit, with the
    two lists it appends to and the calls made so far. *)
Fixpoint enrich_loop (codes : list value) (nav_dates : list (option string))
    (nav_vals : list (option spec_float)) (calls : list value)
  : list (option string) * list (option spec_float) * list value :=
  match codes with
  | [] => (nav_dates, nav_vals, calls)
  | code :: rest =>
      let '(d, v) := fetch_latest_nav code in
      enrich_loop rest (nav_dates ++ [d]) (nav_vals ++ [v]) (calls ++ [code])
  end.

(** Lines 119-139 of [main], on the catalogue [df]; [now] is what
    [datetime.now()] reads.  The two lists are assigned as Python lists, so
    pandas infers the type of each new column. *)
Definition enrich (now : Timestamp) (df : DataFrame) : result run :=
  let df := head TOP_N df in
  codes <- getitem df "基金代码" ;;
  let '(nav_dates, nav_vals, calls) := enrich_loop codes [] [] [] in
  df <- setitem df "最新净值日期" (map of_date_string nav_dates) ;;
  df <- setitem df "最新单位净值" (float_column nav_vals) ;;
  df <- setitem_scalar df "导出时间" (VStr (strftime_datetime now)) ;;
  Ok {| requested := calls; exported := df |}.

(** [main] up to the table it is about to write (lines 113-139). *)
Definition main (now : Timestamp) : result run :=
  df <- get_fund_list ;;
  enrich now df.

Variable os : platform.

(** [DEFAULT_OUT] and [OUT_PATH], lines 12-13. *)
Definition DEFAULT_OUT : string := path_join os "outputs" "jijinlist.xlsx".

Definition OUT_PATH : string :=
  match getenv os "OUT_PATH" with
  | Some path => path
  | None => DEFAULT_OUT
  end.

Definition ensure_dir (path : string) : result unit :=
  let dir_ := dirname os path in
  if negb (String.eqb dir_ "") then call (makedirs os dir_)
  else Ok tt.

(** [main] to its end (lines 113-148): after the table is built the output
    directory is made and the sheet "Top1000" is written. *)
Definition main_with_export (now : Timestamp) : result run :=
  out <- main now ;;
  _ <- ensure_dir OUT_PATH ;;
  _ <- call (to_excel os OUT_PATH ("Top" ++ str_of_int (Z.of_nat TOP_N)) (exported out)) ;;
  Ok out.

End Script.

(** ** A provider and coercions to run the script on *)

Module Demo.

Local Open Scope Z_scope.

Definition digit_of (c : ascii) : option Z :=
  let n := Z.of_nat (nat_of_ascii c) in
  if (48 <=? n) && (n <=? 57) then Some (n - 48) else None.

Fixpoint number_of (s : string) (acc : Z) : option Z :=
  match s with
  | EmptyString => Some acc
  | String c rest =>
      match digit_of c with
      | Some d => number_of rest (10 * acc + d)
      | None => None
      end
  end.

(** Dates written [YYYY-MM-DD]; anything else does not parse. *)
Definition parse_date (s : string) : option Timestamp :=
  if (String.length s =? 10)%nat then
    match number_of (substring 0 4 s) 0, number_of (substring 5 2 s) 0,
          number_of (substring 8 2 s) 0 with
    | Some y, Some m, Some d =>
        if String.eqb (substring 4 1 s) "-" && String.eqb (substring 7 1 s) "-"
           && (1 <=? m) && (m <=? 12) && (1 <=? d) && (d <=? 31)
        then Some (at_date y m d) else None
    | _, _, _ => None
    end
  else None.

Definition datetime_of (v : value) : option Timestamp :=
  match v with
  | VTime t => Some t
  | VStr s => parse_date s
  | _ => None
  end.

Definition numeric_of (v : value) : spec_float :=
  match v with
  | VFloat f => f
  | _ => S754_nan
  end.

Definition pd : pandas := {|
  to_datetime := fun s => Returns (map datetime_of s);
  to_numeric := fun s => Returns (map numeric_of s);
  str_other := fun _ => "nan"
|}.

(** The binary float [m * 2 ^ e]. *)
Definition fl (m : positive) (e : Z) : spec_float := S754_finite false m e.

(** A catalogue as an older provider version spells it: short labels,
    integer identifiers, one fund listed twice. *)
Definition catalog : DataFrame := {|
  columns := ["代码"; "拼音缩写"; "简称"; "类型"];
  rows := [ [VInt 1; VStr "HXCZHH"; VStr "华夏成长混合"; VStr "混合型"];
            [VStr "000003"; VStr "ZHKZZZQA"; VStr "中海可转债债券A"; VStr "债券型"];
            [VStr "1"; VStr "HXCZHH"; VStr "华夏成长混合(重复)"; VStr "混合型"];
            [VInt 5; VStr "JSZQXYDQZQ"; VStr "嘉实增强信用定期债券"; VStr "债券型"] ]
|}.

(** A series out of date order, with one row that does not parse. *)
Definition series_000001 : DataFrame := {|
  columns := ["净值日期"; "单位净值"; "日增长率"];
  rows := [ [VStr "2024-01-03"; VFloat (fl 5 (-2)); VFloat (fl 1 (-3))];
            [VStr "2024-01-05"; VFloat (fl 3 (-1)); VFloat (fl 1 (-2))];
            [VStr "--"; VFloat (fl 7 (-2)); VNone];
            [VStr "2024-01-04"; VFloat (fl 11 (-3)); VFloat (fl 1 (-1))] ]
|}.

Definition series_empty : DataFrame := {|
  columns := ["净值日期"; "单位净值"; "日增长率"];
  rows := []
|}.

Definition series_unparseable : DataFrame := {|
  columns := ["净值日期"; "单位净值"];
  rows := [ [VStr "--"; VFloat (fl 1 0)]; [VStr "2024-01-05"; VStr "n/a"] ]
|}.

(** A series with a single column: there is no [dfn.columns[1]]. *)
Definition series_one_column : DataFrame := {|
  columns := ["净值日期"];
  rows := [ [VStr "2024-01-05"] ]
|}.

Definition ak : akshare := {|
  ak_attr := fun name =>
    if String.eqb name "fund_em_fund_name" then Some (Returns catalog) else None;
  fund_open_fund_info_em := fun symbol =>
    match symbol with
    | VStr "000001" => Returns (Some series_000001)
    | VStr "000003" => Returns (Some series_empty)
    | VStr "000005" => Returns (Some series_unparseable)
    | VStr "000007" => Returns None
    | VStr "000009" => Returns (Some series_one_column)
    | _ => Fails
    end
|}.

Definition now : Timestamp := at_date 2024 1 6 + 34200 * ns_per_second.

(** A provider whose catalogue is [df], under the newest function name. *)
Definition ak_with (df : DataFrame) : akshare := {|
  ak_attr := fun name =>
    if String.eqb name "fund_open_fund_name_em" then Some (Returns df) else None;
  fund_open_fund_info_em := fund_open_fund_info_em ak
|}.

(** A catalogue with an identifier of seven characters. *)
Definition catalog_long_code : DataFrame := {|
  columns := ["基金代码"; "基金简称"];
  rows := [ [VStr "000001"; VStr "华夏成长混合"]; [VStr "1234567"; VStr "七位代码"] ]
|}.

(** A catalogue without any label that reads like a name. *)
Definition catalog_no_name : DataFrame := {|
  columns := ["基金代码"; "基金类型"];
  rows := [ [VStr "000001"; VStr "混合型"]; [VStr "000003"; VStr "债券型"] ]
|}.

(** A catalogue without any label that reads like an identifier. *)
Definition catalog_no_code : DataFrame := {|
  columns := ["基金简称"; "基金类型"];
  rows := [ [VStr "华夏成长混合"; VStr "混合型"] ]
|}.

(** The table [get_fund_list] makes of [catalog]. *)
Definition listing : DataFrame := {|
  columns := ["基金代码"; "基金名称"; "基金类型"];
  rows := [ [VStr "000001"; VStr "华夏成长混合"; VStr "混合型"];
            [VStr "000003"; VStr "中海可转债债券A"; VStr "债券型"];
            [VStr "000005"; VStr "嘉实增强信用定期债券"; VStr "债券型"] ]
|}.

(** A catalogue of 1001 funds, numbered from 1. *)
Definition catalog_1001 : DataFrame := {|
  columns := ["基金代码"; "基金简称"];
  rows := map (fun n => [VInt (Z.of_nat n); VStr "基金"]) (seq 1 1001)
|}.

Definition listing_1001 : DataFrame := {|
  columns := ["基金代码"; "基金名称"];
  rows := map (fun n => [VStr (zfill 6 (str_of_int (Z.of_nat n))); VStr "基金"]) (seq 1 1001)
|}.

(** The dates and values the coercions make of [series_000001]. *)
Definition dates_000001 : list (option Timestamp) :=
  [Some (at_date 2024 1 3); Some (at_date 2024 1 5); None; Some (at_date 2024 1 4)].

Definition navs_000001 : list spec_float :=
  [fl 5 (-2); fl 3 (-1); fl 7 (-2); fl 11 (-3)].

(** A provider without any of the candidate functions. *)
Definition ak_old : akshare := {|
  ak_attr := fun _ => None;
  fund_open_fund_info_em := fund_open_fund_info_em ak
|}.

(** A provider with two of the candidate functions: the older name answers
    with [catalog], the newest with another catalogue. *)
Definition ak_two_functions : akshare := {|
  ak_attr := fun name =>
    if String.eqb name "fund_em_fund_name" then Some (Returns catalog)
    else if String.eqb name "fund_open_fund_name_em" then Some (Returns catalog_long_code)
    else None;
  fund_open_fund_info_em := fund_open_fund_info_em ak
|}.

(** A catalogue that spells the identifier column both ways. *)
Definition catalog_two_codes : DataFrame := {|
  columns := ["基金代码"; "代码"; "基金简称"];
  rows := [ [VStr "000001"; VInt 1; VStr "华夏成长混合"] ]
|}.

(** What a run on [ak] at [now] leaves behind. *)
Definition finished : run :=
  Eval cbv in
    match main ak pd now with
    | Ok out => out
    | Raise _ => {| requested := []; exported := listing |}
    end.

(** A platform with "/" between the parts of a path and no variable
    [OUT_PATH] set.  [dirname] is what is left of the last "/", without
    the slashes it ends in, unless it is slashes only. *)
Fixpoint has_slash (s : string) : bool :=
  match s with
  | EmptyString => false
  | String c rest => Ascii.eqb c "/" || has_slash rest
  end.

Fixpoint up_to_last_slash (s : string) : string :=
  match s with
  | EmptyString => EmptyString
  | String c rest => if has_slash s then String c (up_to_last_slash rest) else EmptyString
  end.

Fixpoint rstrip_slash (s : string) : string :=
  match s with
  | EmptyString => EmptyString
  | String c rest =>
      let rest' := rstrip_slash rest in
      if Ascii.eqb c "/" && String.eqb rest' "" then EmptyString else String c rest'
  end.

Definition posix_dirname (path : string) : string :=
  let head := up_to_last_slash path in
  if String.eqb (rstrip_slash head) "" then head else rstrip_slash head.

(** [writable] says which files can be written. *)
Definition os_with (writable : string -> bool) : platform := {|
  getenv := fun _ => None;
  path_join := fun a b => (a ++ "/" ++ b)%string;
  dirname := posix_dirname;
  makedirs := fun _ => Returns tt;
  to_excel := fun path _ _ => if writable path then Returns tt else Fails
|}.

End Demo.

(** ** Vocabulary of the properties *)

(** The alternate spellings of the column labels, each with the canonical
    label it stands for: the list the specification gives, with the two
    further spellings of the name column the script knows. *)
Definition alternate_spellings : list (string * string) :=
  [("代码", "基金代码"); ("基金简称", "基金名称"); ("简称", "基金名称");
   ("名称", "基金名称"); ("类型", "基金类型"); ("全称", "基金全称");
   ("公司", "基金公司"); ("成立日", "成立日期")].

(** A row of the coerced frame that [dropna] removes: its date cell or its
    value cell is missing. *)
Definition unparseable (dfn : DataFrame) (dc nc : string) (r : row) : Prop :=
  exists i, In i (positions dc (columns dfn) ++ positions nc (columns dfn)) /\
            isna (cell i r) = true.

(** The rows of a series that parse: the date is a timestamp and the value
    is a number, paired in the order of the series. *)
Definition valid_pairs (dates : list (option Timestamp)) (navs : list spec_float)
  : list (Timestamp * spec_float) :=
  flat_map (fun p => match p with
                     | (Some t, x) => if isna (VFloat x) then [] else [(t, x)]
                     | (None, _) => []
                     end)
           (combine dates navs).

(** Rows in ascending order of the key under column [i]. *)
Definition key_le (i : nat) (a b : row) : Prop :=
  (sort_key (cell i a) <= sort_key (cell i b))%Z.

(** The identifier a provider cell becomes. *)
Definition normalized_code (pd : pandas) (v : value) : value :=
  VStr (zfill 6 (astype_str pd v)).

(** The labels [main] adds. *)
Definition enrichment_columns : list string :=
  ["最新净值日期"; "最新单位净值"; "导出时间"].

(** Whether the column "最新单位净值" comes out as a float64 column: some
    fund of [codes] got a value. *)
Definition float64_column (ak : akshare) (pd : pandas) (codes : list value) : bool :=
  has_float (map (fun c => snd (fetch_latest_nav ak pd c)) codes).

(** The three cells [main] adds to the row of identifier [code]. *)
Definition enrichment (ak : akshare) (pd : pandas) (now : Timestamp) (float64 : bool)
    (code : value) : list value :=
  [of_date_string (fst (fetch_latest_nav ak pd code));
   float_cell float64 (snd (fetch_latest_nav ak pd code));
   VStr (strftime_datetime now)].

(** * Properties *)

(** ** Labels and positions *)

Lemma mem_In (s : string) (l : list string) : mem s l = true <-> In s l.
Proof.
  unfold mem. rewrite existsb_exists. split.
  - intros [x [Hx Heq]]. apply String.eqb_eq in Heq. now subst.
  - intros H. exists s. split; [assumption | apply String.eqb_refl].
Qed.

Lemma mem_false (s : string) (l : list string) : mem s l = false <-> ~ In s l.
Proof.
  rewrite <- mem_In. destruct (mem s l); split; congruence.
Qed.

Lemma positions_from_spec (c : string) (cols : list string) (s k : nat) :
  In k (positions_from s c cols) <->
  (s <= k /\ nth_error cols (k - s) = Some c)%nat.
Proof.
  revert s. induction cols as [|l rest IH]; intros s; simpl.
  - split; [tauto | intros [_ H]; destruct (k - s)%nat; discriminate].
  - destruct (String.eqb_spec l c) as [-> | Hne].
    + simpl. rewrite IH. split.
      * intros [<- | [Hle Hn]].
        -- rewrite Nat.sub_diag. split; [lia | reflexivity].
        -- split; [lia |]. replace (k - s)%nat with (S (k - S s)) by lia. exact Hn.
      * intros [Hle Hn]. destruct (Nat.eq_dec s k) as [-> | Hsk]; [now left | right].
        split; [lia |]. replace (k - s)%nat with (S (k - S s)) in Hn by lia. exact Hn.
    + rewrite IH. split.
      * intros [Hle Hn]. split; [lia |].
        replace (k - s)%nat with (S (k - S s)) by lia. exact Hn.
      * intros [Hle Hn]. destruct (Nat.eq_dec s k) as [-> | Hsk].
        -- rewrite Nat.sub_diag in Hn. simpl in Hn. congruence.
        -- split; [lia |]. replace (k - s)%nat with (S (k - S s)) in Hn by lia. exact Hn.
Qed.

Lemma positions_spec (c : string) (cols : list string) (k : nat) :
  In k (positions c cols) <-> nth_error cols k = Some c.
Proof.
  unfold positions. rewrite positions_from_spec, Nat.sub_0_r.
  split; [tauto | intros H; split; [lia | exact H]].
Qed.

Lemma positions_nil (c : string) (cols : list string) :
  positions c cols = [] <-> ~ In c cols.
Proof.
  split.
  - intros H Hin. apply In_nth_error in Hin as [k Hk].
    apply positions_spec in Hk. rewrite H in Hk. exact Hk.
  - intros H. destruct (positions c cols) as [|k ks] eqn:E; [reflexivity |].
    exfalso. apply H. assert (Hk : In k (positions c cols)) by (rewrite E; now left).
    apply positions_spec in Hk. eapply nth_error_In; eauto.
Qed.

Lemma positions_from_app (c : string) (xs ys : list string) (s : nat) :
  positions_from s c (xs ++ ys) =
  positions_from s c xs ++ positions_from (s + List.length xs) c ys.
Proof.
  revert s. induction xs as [|l rest IH]; intros s; simpl.
  - now rewrite Nat.add_0_r.
  - rewrite IH. replace (S s + List.length rest)%nat with (s + S (List.length rest))%nat by lia.
    now destruct (String.eqb l c).
Qed.

Lemma positions_fresh (c : string) (cols : list string) :
  ~ In c cols -> positions c (cols ++ [c]) = [List.length cols].
Proof.
  intros H. unfold positions. rewrite positions_from_app.
  apply positions_nil in H. unfold positions in H. rewrite H. simpl.
  now rewrite String.eqb_refl.
Qed.

Lemma positions_app_other (c d : string) (cols : list string) :
  c <> d -> positions c (cols ++ [d]) = positions c cols.
Proof.
  intros H. unfold positions. rewrite positions_from_app. simpl.
  destruct (String.eqb_spec d c); [congruence | apply app_nil_r].
Qed.

Lemma getitem_Ok (df : DataFrame) (c : string) (s : list value) :
  getitem df c = Ok s ->
  exists i, positions c (columns df) = [i] /\ s = map (cell i) (rows df).
Proof.
  unfold getitem. destruct (positions c (columns df)) as [|i [|j rest]]; try discriminate.
  intros H. injection H as <-. now exists i.
Qed.

Lemma getitem_at (df : DataFrame) (c : string) (i : nat) :
  positions c (columns df) = [i] -> getitem df c = Ok (map (cell i) (rows df)).
Proof. intros H. unfold getitem. now rewrite H. Qed.

(** ** The error monad *)

Lemma bind_Ok {A B : Type} (m : result A) (k : A -> result B) (b : B) :
  bind m k = Ok b -> exists a, m = Ok a /\ k a = Ok b.
Proof. destruct m as [a | e]; simpl; [eauto | discriminate]. Qed.

Lemma bind_Raise {A B : Type} (m : result A) (k : A -> result B) (e : exn) :
  bind m k = Raise e -> m = Raise e \/ exists a, m = Ok a /\ k a = Raise e.
Proof. destruct m as [a | e']; simpl; [eauto | intros H; left; congruence]. Qed.

(** Splits a hypothesis [x <- m ;; k = Ok b] into its two steps. *)
Ltac bind_inv H :=
  let a := fresh "a" in
  let Ha := fresh "Hstep" in
  apply bind_Ok in H as [a [Ha H]].

(** ** Lists *)

Lemma last_cons {A : Type} (l : list A) (a b : A) : last (b :: l) a = last l b.
Proof.
  revert a b. induction l as [|c l IH]; intros a b; [reflexivity |].
  change (last (b :: c :: l) a) with (last (c :: l) a). now rewrite (IH a c), (IH b c).
Qed.

Lemma last_In {A : Type} (l : list A) (x : A) : In (last l x) (x :: l).
Proof.
  revert x. induction l as [|c l IH]; intros x; [now left |].
  rewrite last_cons. right. apply IH.
Qed.

(** ** Writing a column *)

Lemma set_cells_length (c : string) (v : value) (cols : list string) (r : row) :
  List.length (set_cells c v cols r) = List.length r.
Proof.
  revert r. induction cols as [|l cols IH]; intros [|x r]; simpl; auto.
Qed.

Lemma cell_set_cells (c l : string) (v : value) (cols : list string) (r : row) (k : nat) :
  List.length r = List.length cols ->
  nth_error cols k = Some l ->
  cell k (set_cells c v cols r) = if String.eqb l c then v else cell k r.
Proof.
  unfold cell.
  revert r k. induction cols as [|l' cols IH]; intros [|x r] [|k]; simpl;
    try discriminate.
  - intros _ H. injection H as ->. reflexivity.
  - intros Hlen H. apply IH; [lia | exact H].
Qed.

Lemma setitem_existing (df : DataFrame) (c : string) (vals : list value) :
  In c (columns df) -> List.length vals = len df ->
  setitem df c vals =
  Ok {| columns := columns df;
        rows := map (fun rv => set_cells c (snd rv) (columns df) (fst rv))
                    (combine (rows df) vals) |}.
Proof.
  intros Hin Hlen. unfold setitem.
  rewrite Hlen, Nat.eqb_refl. apply mem_In in Hin. now rewrite Hin.
Qed.

Lemma setitem_fresh (df : DataFrame) (c : string) (vals : list value) :
  ~ In c (columns df) -> List.length vals = len df ->
  setitem df c vals =
  Ok {| columns := columns df ++ [c];
        rows := map (fun rv => fst rv ++ [snd rv]) (combine (rows df) vals) |}.
Proof.
  intros Hin Hlen. unfold setitem.
  rewrite Hlen, Nat.eqb_refl. apply mem_false in Hin. now rewrite Hin.
Qed.

Lemma wf_frame_spec (df : DataFrame) :
  wf_frame df = true <->
  Forall (fun r => List.length r = List.length (columns df)) (rows df).
Proof.
  unfold wf_frame. rewrite forallb_forall, Forall_forall.
  split; intros H r Hr; specialize (H r Hr); now apply Nat.eqb_eq.
Qed.

(** After writing column [dc] and then column [nc] row by row, the two
    cells of each row are the two values written. *)
Lemma two_columns_written (cols : list string) (dc nc : string) (i j : nat) :
  dc <> nc -> nth_error cols i = Some dc -> nth_error cols j = Some nc ->
  forall (rs : list row) (dv nv : list value),
    Forall (fun r => List.length r = List.length cols) rs ->
    List.length dv = List.length rs -> List.length nv = List.length rs ->
    map (fun r => (cell i r, cell j r))
        (map (fun rv => set_cells nc (snd rv) cols (fst rv))
             (combine (map (fun rv => set_cells dc (snd rv) cols (fst rv))
                           (combine rs dv)) nv))
    = combine dv nv.
Proof.
  intros Hne Hi Hj. induction rs as [|r rs IH]; intros dv nv Hwf Hd Hn.
  - destruct dv; [reflexivity | discriminate].
  - destruct dv as [|d dv]; [discriminate |]. destruct nv as [|n nv]; [discriminate |].
    inversion Hwf as [|? ? Hr Hrs]; subst. simpl. f_equal.
    + assert (Hlen : List.length (set_cells dc d cols r) = List.length cols)
        by now rewrite set_cells_length.
      rewrite (cell_set_cells nc dc n cols _ i Hlen Hi).
      rewrite (cell_set_cells nc nc n cols _ j Hlen Hj).
      rewrite String.eqb_refl.
      destruct (String.eqb_spec dc nc) as [E | _]; [contradiction |].
      rewrite (cell_set_cells dc dc d cols r i Hr Hi), String.eqb_refl. reflexivity.
    + apply IH; simpl in *; auto.
Qed.

Lemma combine_map_self {A B C : Type} (g : A -> B) (h : A * B -> C) (l : list A) :
  map h (combine l (map g l)) = map (fun x => h (x, g x)) l.
Proof. induction l as [|a l IH]; simpl; [reflexivity | now rewrite IH]. Qed.

Lemma Forall2_transfer {A B : Type} (R : A -> B -> Prop) (P : A -> Prop) (Q : B -> Prop)
    (l : list A) (l' : list B) :
  Forall2 R l l' -> (forall a b, R a b -> P a -> Q b) -> Forall P l -> Forall Q l'.
Proof.
  intros H HR. induction H as [|a b l l' Hab _ IH]; intros HP; constructor;
    inversion HP; subst; eauto.
Qed.

Lemma Forall2_map_self {A B : Type} (P : A -> Prop) (R : A -> B -> Prop) (f : A -> B)
    (l : list A) :
  Forall P l -> (forall a, P a -> R a (f a)) -> Forall2 R l (map f l).
Proof.
  intros H HR. induction H as [|a l Ha _ IH]; simpl; constructor; auto.
Qed.

(** ** Selecting columns *)

Lemma positions_label (c : string) (cols : list string) (k : nat) :
  In k (positions c cols) -> nth k cols "" = c.
Proof.
  intros H. apply positions_spec in H. now apply nth_error_nth.
Qed.

Lemma select_columns (keep : list string) (df : DataFrame) :
  columns (select keep df)
  = flat_map (fun c => map (fun _ => c) (positions c (columns df))) keep.
Proof.
  unfold select. simpl. induction keep as [|c keep IH]; simpl; [reflexivity |].
  rewrite map_app, IH. f_equal.
  apply map_ext_in. intros k Hk. now apply positions_label.
Qed.

Lemma select_incl (keep : list string) (df : DataFrame) :
  incl (columns (select keep df)) keep.
Proof.
  rewrite select_columns. intros c Hc.
  apply in_flat_map in Hc as [c' [Hc' Hin]].
  apply in_map_iff in Hin as [k [<- _]]. exact Hc'.
Qed.

Lemma select_wf (keep : list string) (df : DataFrame) :
  wf_frame (select keep df) = true.
Proof.
  apply wf_frame_spec. unfold select. simpl.
  apply Forall_forall. intros r Hr. apply in_map_iff in Hr as [r0 [<- _]].
  now rewrite !length_map.
Qed.

Lemma positions_middle (c : string) (xs ys : list string) :
  ~ In c xs -> ~ In c ys -> positions c (xs ++ c :: ys) = [List.length xs].
Proof.
  intros Hx Hy. unfold positions. rewrite positions_from_app. simpl.
  rewrite String.eqb_refl.
  apply positions_nil in Hx. unfold positions in Hx. rewrite Hx. simpl. f_equal.
  destruct (positions_from (S (List.length xs)) c ys) as [|k ks] eqn:E; [reflexivity |].
  exfalso. apply Hy.
  assert (Hk : In k (positions_from (S (List.length xs)) c ys)) by (rewrite E; now left).
  apply positions_from_spec in Hk as [_ Hk]. eapply nth_error_In; eauto.
Qed.

(** A label that [keep] lists once and that names one column of [df] names
    one column of [df[keep]], with the same cells. *)
Lemma select_getitem (keep : list string) (df : DataFrame) (c : string) (k : nat) :
  NoDup keep -> In c keep -> positions c (columns df) = [k] ->
  getitem (select keep df) c = Ok (map (cell k) (rows df)).
Proof.
  intros Hnd Hin Hk.
  apply in_split in Hin as [k1 [k2 ->]].
  apply NoDup_remove_2 in Hnd.
  assert (H1 : ~ In c k1) by (intros H; apply Hnd, in_or_app; now left).
  assert (H2 : ~ In c k2) by (intros H; apply Hnd, in_or_app; now right).
  set (idx1 := flat_map (fun c' => positions c' (columns df)) k1).
  set (idx2 := flat_map (fun c' => positions c' (columns df)) k2).
  assert (Hidx : flat_map (fun c' => positions c' (columns df)) (k1 ++ c :: k2)
                 = idx1 ++ k :: idx2).
  { rewrite flat_map_app. simpl. now rewrite Hk. }
  assert (Hcols : columns (select (k1 ++ c :: k2) df)
                  = map (fun i => nth i (columns df) "") idx1
                    ++ c :: map (fun i => nth i (columns df) "") idx2).
  { unfold select. simpl. rewrite Hidx, map_app. simpl. do 2 f_equal.
    apply positions_label. rewrite Hk. now left. }
  assert (Hfresh : forall ks, ~ In c ks ->
            ~ In c (map (fun i => nth i (columns df) "")
                        (flat_map (fun c' => positions c' (columns df)) ks))).
  { intros ks Hks H. apply in_map_iff in H as [i [Hi Hin]].
    apply in_flat_map in Hin as [c' [Hc' Hin]].
    apply positions_label in Hin. congruence. }
  pose proof (Hfresh k1 H1) as F1. pose proof (Hfresh k2 H2) as F2.
  fold idx1 in F1. fold idx2 in F2.
  unfold getitem. rewrite Hcols, (positions_middle c _ _ F1 F2).
  f_equal. unfold select. simpl. rewrite map_map. apply map_ext. intros r.
  fold idx1 idx2 in Hidx. rewrite Hidx, map_app, length_map. unfold cell at 1.
  rewrite app_nth2; rewrite length_map; [| lia].
  now rewrite Nat.sub_diag.
Qed.

(** ** Zero filling *)

Lemma zeros_length (n : nat) : String.length (zeros n) = n.
Proof. induction n; simpl; auto. Qed.

Lemma append_length (s t : string) :
  String.length (s ++ t) = (String.length s + String.length t)%nat.
Proof. induction s; simpl; auto. Qed.

(** [zfill] pads up to the width and never shortens. *)
Lemma zeros_char_length (n : nat) : char_length (zeros n) = n.
Proof. induction n; simpl; auto. Qed.

Lemma append_char_length (s t : string) :
  char_length (s ++ t) = (char_length s + char_length t)%nat.
Proof. induction s as [|c s IH]; simpl; [reflexivity | rewrite IH; lia]. Qed.

Lemma sign_is_no_continuation (c : ascii) :
  (Ascii.eqb c "+" || Ascii.eqb c "-")%bool = true -> is_continuation c = false.
Proof.
  intros H. apply orb_prop in H as [H | H]; apply Ascii.eqb_eq in H; subst; reflexivity.
Qed.

(** [zfill] pads up to the width, counted in characters, and never
    shortens. *)
Lemma zfill_length (width : nat) (s : string) :
  char_length (zfill width s) = Nat.max width (char_length s).
Proof.
  unfold zfill. destruct s as [|c rest].
  - rewrite zeros_char_length. simpl. lia.
  - destruct (Ascii.eqb c "+" || Ascii.eqb c "-")%bool eqn:E.
    + apply sign_is_no_continuation in E. cbn [char_length]. rewrite E.
      rewrite append_char_length, zeros_char_length. lia.
    + rewrite append_char_length, zeros_char_length. lia.
Qed.

(** ** Dropping duplicates *)

Lemma float_eqb_eq (a b : spec_float) : float_eqb a b = true <-> a = b.
Proof.
  destruct a, b; simpl; split; intros H; try discriminate; try reflexivity.
  - apply Bool.eqb_prop in H. now subst.
  - injection H as ->. apply Bool.eqb_reflx.
  - apply Bool.eqb_prop in H. now subst.
  - injection H as ->. apply Bool.eqb_reflx.
  - apply andb_prop in H as [H He]. apply andb_prop in H as [Hs Hm].
    apply Bool.eqb_prop in Hs. apply Pos.eqb_eq in Hm. apply Z.eqb_eq in He. now subst.
  - injection H as -> -> ->. now rewrite Bool.eqb_reflx, Pos.eqb_refl, Z.eqb_refl.
Qed.

Lemma value_eqb_eq (a b : value) : value_eqb a b = true <-> a = b.
Proof.
  destruct a, b; simpl; split; intros H; try discriminate; try reflexivity.
  - apply String.eqb_eq in H. now subst.
  - injection H as ->. apply String.eqb_refl.
  - apply Z.eqb_eq in H. now subst.
  - injection H as ->. apply Z.eqb_refl.
  - apply float_eqb_eq in H. now subst.
  - injection H as ->. now apply float_eqb_eq.
  - apply Z.eqb_eq in H. now subst.
  - injection H as ->. apply Z.eqb_refl.
Qed.

Lemma seen_spec (v : value) (seen : list value) :
  existsb (value_eqb v) seen = true <-> In v seen.
Proof.
  rewrite existsb_exists. split.
  - intros [x [Hx Heq]]. apply value_eqb_eq in Heq. now subst.
  - intros H. exists v. split; [exact H | now apply value_eqb_eq].
Qed.

Section DropDups.

Variable i : nat.

Lemma drop_dups_In (seen : list value) (rs : list row) (r : row) :
  In r (drop_dups i seen rs) -> In r rs /\ ~ In (cell i r) seen.
Proof.
  revert seen. induction rs as [|r0 rs IH]; intros seen; simpl; [tauto |].
  destruct (existsb (value_eqb (cell i r0)) seen) eqn:E.
  - intros H. destruct (IH _ H). auto.
  - intros [<- | H].
    + split; [now left |]. intros Hin. apply seen_spec in Hin. congruence.
    + destruct (IH _ H) as [Hin Hns]. split; [now right |].
      intros Hs. apply Hns. now right.
Qed.

Lemma drop_dups_NoDup (seen : list value) (rs : list row) :
  NoDup (map (cell i) (drop_dups i seen rs)).
Proof.
  revert seen. induction rs as [|r0 rs IH]; intros seen; simpl; [constructor |].
  destruct (existsb (value_eqb (cell i r0)) seen); [apply IH |].
  simpl. constructor; [| apply IH].
  intros H. apply in_map_iff in H as [r [Heq Hr]].
  apply drop_dups_In in Hr as [_ Hns]. apply Hns. rewrite Heq. now left.
Qed.

(** Every key of [rs] is a key already seen or a key of a row that stays. *)
Lemma drop_dups_complete (seen : list value) (rs : list row) (r : row) :
  In r rs ->
  In (cell i r) seen \/ In (cell i r) (map (cell i) (drop_dups i seen rs)).
Proof.
  revert seen. induction rs as [|r0 rs IH]; intros seen; simpl; [tauto |].
  intros [<- | Hin].
  - destruct (existsb (value_eqb (cell i r0)) seen) eqn:E.
    + left. now apply seen_spec.
    + right. now left.
  - destruct (existsb (value_eqb (cell i r0)) seen) eqn:E.
    + apply IH, Hin.
    + destruct (IH (cell i r0 :: seen) Hin) as [[<- | H] | H].
      * right. now left.
      * now left.
      * right. now right.
Qed.

(** A row that stays is the first of [rs] with its key. *)
Lemma drop_dups_first (seen : list value) (rs : list row) (r : row) :
  In r (drop_dups i seen rs) ->
  exists before after,
    rs = before ++ r :: after /\
    forall r', In r' before -> cell i r' <> cell i r.
Proof.
  revert seen. induction rs as [|r0 rs IH]; intros seen; simpl; [tauto |].
  destruct (existsb (value_eqb (cell i r0)) seen) eqn:E.
  - intros H. pose proof (drop_dups_In _ _ _ H) as [_ Hns].
    destruct (IH _ H) as [before [after [-> Hb]]].
    exists (r0 :: before), after. split; [reflexivity |].
    intros r' [<- | Hr']; [| now apply Hb].
    intros Heq. apply Hns. rewrite <- Heq. now apply seen_spec.
  - intros [<- | H].
    + exists [], rs. split; [reflexivity | intros r' []].
    + pose proof (drop_dups_In _ _ _ H) as [_ Hns].
      destruct (IH _ H) as [before [after [-> Hb]]].
      exists (r0 :: before), after. split; [reflexivity |].
      intros r' [<- | Hr']; [| now apply Hb].
      intros Heq. apply Hns. rewrite <- Heq. now left.
Qed.

End DropDups.

(** ** Printing dates *)

Lemma digits_length (width : nat) (n : Z) : String.length (digits width n) = width.
Proof.
  revert n. induction width as [|w IH]; intros n; simpl; [reflexivity |].
  rewrite append_length, IH. simpl. lia.
Qed.

Lemma get_after (s rest : string) (c : ascii) :
  String.get (String.length s) (s ++ String c rest) = Some c.
Proof. induction s as [|a s IH]; simpl; [reflexivity | exact IH]. Qed.

Lemma append_assoc (s t u : string) : ((s ++ t) ++ u = s ++ (t ++ u))%string.
Proof. induction s as [|a s IH]; simpl; [reflexivity | now rewrite IH]. Qed.

(** [strftime_date] prints ten characters, with a dash after the year and
    a dash after the month. *)
Lemma strftime_date_shape (t : Timestamp) :
  String.length (strftime_date t) = 10%nat /\
  String.get 4 (strftime_date t) = Some "-"%char /\
  String.get 7 (strftime_date t) = Some "-"%char.
Proof.
  unfold strftime_date. destruct (civil_from_days (t / ns_per_day)) as [[y m] d].
  split; [| split].
  - rewrite !append_length, (digits_length 4 y), (digits_length 2 m), (digits_length 2 d).
    reflexivity.
  - rewrite <- (digits_length 4 y) at 1. apply get_after.
  - change (digits 4 y ++ "-" ++ digits 2 m ++ "-" ++ digits 2 d)%string
      with (digits 4 y ++ String "-" (digits 2 m ++ String "-" (digits 2 d)))%string.
    change (String "-" (digits 2 m ++ String "-" (digits 2 d)))
      with (String "-" (digits 2 m) ++ String "-" (digits 2 d))%string.
    rewrite <- append_assoc.
    assert (Hlen : String.length (digits 4 y ++ String "-" (digits 2 m)) = 7%nat)
      by (rewrite append_length, (digits_length 4 y); cbn [String.length];
          now rewrite (digits_length 2 m)).
    rewrite <- Hlen at 1. apply get_after.
Qed.

(** ** Sorting rows by one column *)

Section Sorting.

Local Open Scope Z_scope.

Variable i : nat.

Lemma insert_row_perm (r : row) (l : list row) :
  Permutation (insert_row i r l) (r :: l).
Proof.
  induction l as [|r' l IH]; simpl; [apply Permutation_refl |].
  destruct (sort_key (cell i r) <? sort_key (cell i r')).
  - apply Permutation_refl.
  - eapply perm_trans; [apply perm_skip, IH | apply perm_swap].
Qed.

Lemma insert_row_sorted (r : row) (l : list row) :
  StronglySorted (key_le i) l -> StronglySorted (key_le i) (insert_row i r l).
Proof.
  induction 1 as [|r' l Hs IH Hall]; simpl.
  - constructor; constructor.
  - destruct (Z.ltb_spec (sort_key (cell i r)) (sort_key (cell i r'))) as [Hlt | Hge].
    + constructor; [now constructor |].
      constructor; [unfold key_le; lia |].
      eapply Forall_impl; [| exact Hall]. unfold key_le. intros; lia.
    + constructor; [exact IH |].
      eapply Permutation_Forall; [apply Permutation_sym, insert_row_perm |].
      constructor; [unfold key_le; lia | exact Hall].
Qed.

Lemma insertion_sort_spec (l acc : list row) :
  StronglySorted (key_le i) acc ->
  StronglySorted (key_le i) (fold_left (fun a r => insert_row i r a) l acc) /\
  Permutation (fold_left (fun a r => insert_row i r a) l acc) (acc ++ l).
Proof.
  revert acc. induction l as [|r l IH]; intros acc Hacc; simpl.
  - rewrite app_nil_r. split; [exact Hacc | apply Permutation_refl].
  - destruct (IH (insert_row i r acc) (insert_row_sorted r acc Hacc)) as [Hs Hp].
    split; [exact Hs |].
    eapply perm_trans; [exact Hp |].
    eapply perm_trans; [apply Permutation_app_tail, insert_row_perm |].
    simpl. apply Permutation_middle.
Qed.

(** The last row of a sorted list carries the greatest key. *)
Lemma sorted_last_max (x : row) (l : list row) :
  StronglySorted (key_le i) (x :: l) ->
  forall y, In y (x :: l) -> key_le i y (last l x).
Proof.
  revert x. induction l as [|x' l IH]; intros x Hs y Hy.
  - destruct Hy as [<- | []]. unfold key_le. simpl. lia.
  - inversion Hs as [|? ? Hs' Hall]; subst.
    rewrite last_cons. destruct Hy as [<- | Hy].
    + rewrite Forall_forall in Hall. apply Hall, last_In.
    + apply IH; assumption.
Qed.

End Sorting.

(** ** The latest observation of one fund *)

Section Nav.

Variable ak : akshare.
Variable pd : pandas.

Lemma latest_row_shape (dfn : DataFrame) (dc nc : string)
    (answer : option string * option spec_float) :
  latest_row dfn dc nc = Ok answer ->
  answer = (None, None) \/
  exists (t : Timestamp) (v : spec_float), answer = (Some (strftime_date t), Some v).
Proof.
  unfold latest_row. destruct (len _ =? 0)%nat.
  - intros H. injection H as <-. now left.
  - intros H. bind_inv H. bind_inv H. bind_inv H. bind_inv H. bind_inv H.
    injection H as <-. right.
    destruct a0; simpl in Hstep1; try discriminate. injection Hstep1 as <-.
    eauto.
Qed.

Lemma fetch_latest_nav_try_shape (symbol : value)
    (answer : option string * option spec_float) :
  fetch_latest_nav_try ak pd symbol = Ok answer ->
  answer = (None, None) \/
  exists (t : Timestamp) (v : spec_float), answer = (Some (strftime_date t), Some v).
Proof.
  unfold fetch_latest_nav_try. intros H. bind_inv H.
  destruct a as [dfn |]; [| injection H as <-; now left].
  destruct (len dfn =? 0)%nat; [injection H as <-; now left |].
  bind_inv H. destruct a as [[dfn' dc] nc].
  eapply latest_row_shape; eauto.
Qed.

(** C9: the pair [fetch_latest_nav] returns is [(None, None)] or a date
    string together with a float; a date never comes without a value, nor a
    value without a date.  The date string is a timestamp printed as
    year-month-day. *)
Theorem fetch_latest_nav_both_or_neither (symbol : value) :
  fetch_latest_nav ak pd symbol = (None, None) \/
  exists (t : Timestamp) (v : spec_float),
    fetch_latest_nav ak pd symbol = (Some (strftime_date t), Some v).
Proof.
  unfold fetch_latest_nav.
  destruct (fetch_latest_nav_try ak pd symbol) as [answer | e] eqn:E.
  - apply fetch_latest_nav_try_shape in E. exact E.
  - now left.
Qed.

Lemma filter_none {A : Type} (f : A -> bool) (l : list A) :
  (forall x, In x l -> f x = false) -> filter f l = [].
Proof.
  induction l as [|x l IH]; intros H; simpl; [reflexivity |].
  rewrite (H x (or_introl eq_refl)). apply IH. intros y Hy. apply H. now right.
Qed.

Lemma dropna_all (dfn : DataFrame) (dc nc : string) :
  Forall (unparseable dfn dc nc) (rows dfn) ->
  rows (dropna [dc; nc] dfn) = [].
Proof.
  intros H. unfold dropna. simpl. rewrite app_nil_r.
  apply filter_none. intros r Hr.
  rewrite Forall_forall in H. destruct (H r Hr) as [i [Hi Hna]].
  apply not_true_is_false. intros Hall.
  rewrite forallb_forall in Hall. specialize (Hall i Hi).
  rewrite Hna in Hall. discriminate.
Qed.

Lemma sort_values_empty (c : string) (df : DataFrame) :
  rows df = [] -> rows (sort_values c df) = [].
Proof.
  intros H. unfold sort_values.
  destruct (positions c (columns df)); simpl; rewrite H; reflexivity.
Qed.

Lemma latest_row_all_dropped (dfn : DataFrame) (dc nc : string) :
  Forall (unparseable dfn dc nc) (rows dfn) ->
  latest_row dfn dc nc = Ok (None, None).
Proof.
  intros H. unfold latest_row, len.
  rewrite (sort_values_empty dc _ (dropna_all dfn dc nc H)). reflexivity.
Qed.

(** C2: [fetch_latest_nav] is a total function (it never raises), and it
    answers [(None, None)] in each of these cases alike: the provider call
    raises; it returns [None]; it returns an empty series; choosing or
    coercing the columns raises; every row of the coerced series misses its
    date or its value; anything at all raises inside the [try]. *)
Theorem fetch_latest_nav_swallows_failures (symbol : value) :
  fund_open_fund_info_em ak symbol = Fails \/
  fund_open_fund_info_em ak symbol = Returns None \/
  (exists dfn, fund_open_fund_info_em ak symbol = Returns (Some dfn) /\ len dfn = 0%nat) \/
  (exists dfn e, fund_open_fund_info_em ak symbol = Returns (Some dfn) /\
                 coerce_series pd dfn = Raise e) \/
  (exists dfn dfn' dc nc,
      fund_open_fund_info_em ak symbol = Returns (Some dfn) /\
      coerce_series pd dfn = Ok (dfn', dc, nc) /\
      Forall (unparseable dfn' dc nc) (rows dfn')) \/
  (exists e, fetch_latest_nav_try ak pd symbol = Raise e) ->
  fetch_latest_nav ak pd symbol = (None, None).
Proof.
  unfold fetch_latest_nav, fetch_latest_nav_try.
  intros [H | [H | [[dfn [H Hlen]] | [[dfn [e [H He]]] | [[dfn [dfn' [dc [nc [H [Hc Hall]]]]]] | [e He]]]]]].
  - rewrite H. reflexivity.
  - rewrite H. reflexivity.
  - rewrite H. simpl. rewrite Hlen. reflexivity.
  - rewrite H. simpl. rewrite He. simpl. now destruct (len dfn =? 0)%nat.
  - rewrite H. simpl. rewrite Hc. simpl.
    rewrite (latest_row_all_dropped _ _ _ Hall). now destruct (len dfn =? 0)%nat.
  - unfold fetch_latest_nav_try in He. rewrite He. reflexivity.
Qed.

Lemma valid_pairs_spec (dates : list (option Timestamp)) (navs : list spec_float)
    (t : Timestamp) (x : spec_float) :
  In (t, x) (valid_pairs dates navs) <->
  In (Some t, x) (combine dates navs) /\ isna (VFloat x) = false.
Proof.
  unfold valid_pairs. rewrite in_flat_map. split.
  - intros [[[t' |] x'] [Hin H]]; [| destruct H].
    destruct (isna (VFloat x')) eqn:E; [destruct H |].
    destruct H as [H | []]. injection H as <- <-. now split.
  - intros [Hin Hna]. exists (Some t, x). split; [exact Hin |].
    rewrite Hna. now left.
Qed.

Lemma combine_map2 {A B C D : Type} (f : A -> C) (g : B -> D) (l : list A) (l' : list B) :
  combine (map f l) (map g l') = map (fun p => (f (fst p), g (snd p))) (combine l l').
Proof.
  revert l'. induction l as [|a l IH]; intros [|b l']; simpl; try reflexivity.
  now rewrite IH.
Qed.

Lemma coerce_series_spec (dfn : DataFrame) (dc nc : string) (sd sn : list value)
    (dates : list (option Timestamp)) (navs : list spec_float) :
  wf_frame dfn = true ->
  column_or dfn "净值日期" 0 = Ok dc ->
  column_or dfn "单位净值" 1 = Ok nc ->
  dc <> nc ->
  getitem dfn dc = Ok sd -> getitem dfn nc = Ok sn ->
  to_datetime pd sd = Returns dates -> to_numeric pd sn = Returns navs ->
  List.length dates = len dfn -> List.length navs = len dfn ->
  exists dfn' i j,
    coerce_series pd dfn = Ok (dfn', dc, nc) /\
    positions dc (columns dfn') = [i] /\ positions nc (columns dfn') = [j] /\
    map (fun r => (cell i r, cell j r)) (rows dfn')
    = combine (map of_datetime dates) (map VFloat navs).
Proof.
  intros Hwf Hdc Hnc Hne Hsd Hsn Hdates Hnavs Hld Hln.
  destruct (getitem_Ok _ _ _ Hsd) as [i [Hi Esd]].
  destruct (getitem_Ok _ _ _ Hsn) as [j [Hj Esn]].
  assert (Hi' : nth_error (columns dfn) i = Some dc)
    by (apply positions_spec; rewrite Hi; now left).
  assert (Hj' : nth_error (columns dfn) j = Some nc)
    by (apply positions_spec; rewrite Hj; now left).
  apply wf_frame_spec in Hwf.
  set (rows1 := map (fun rv => set_cells dc (snd rv) (columns dfn) (fst rv))
                    (combine (rows dfn) (map of_datetime dates))).
  set (dfn1 := {| columns := columns dfn; rows := rows1 |}).
  assert (Hlen1 : len dfn1 = len dfn).
  { unfold len, dfn1, rows1. simpl.
    rewrite length_map, length_combine, length_map. unfold len in Hld. lia. }
  assert (Hwf1 : Forall (fun r => List.length r = List.length (columns dfn)) rows1).
  { unfold rows1. apply Forall_forall. intros r Hr.
    apply in_map_iff in Hr as [[r0 v] [<- Hin]]. simpl.
    rewrite set_cells_length. rewrite Forall_forall in Hwf. apply Hwf.
    eapply in_combine_l; eauto. }
  assert (Hcol1 : map (cell j) rows1 = sn).
  { subst sn. unfold rows1. rewrite map_map.
    unfold len in Hld. rewrite <- (length_map of_datetime) in Hld.
    revert Hld Hwf. generalize (map of_datetime dates) as dv. generalize (rows dfn) as rs.
    induction rs as [|r rs IH]; intros [|d dv] Hl Hw; simpl in *; try discriminate;
      [reflexivity |].
    inversion Hw as [|? ? Hr Hrs]; subst. f_equal; [| apply IH; auto].
    rewrite (cell_set_cells dc nc d _ r j Hr Hj').
    destruct (String.eqb_spec nc dc); [congruence | reflexivity]. }
  exists {| columns := columns dfn;
            rows := map (fun rv => set_cells nc (snd rv) (columns dfn) (fst rv))
                        (combine rows1 (map VFloat navs)) |}, i, j.
  split; [| split; [exact Hi | split; [exact Hj |]]].
  - unfold coerce_series. rewrite Hdc, Hnc. simpl. rewrite Hsd. simpl.
    rewrite Hdates. simpl.
    rewrite (setitem_existing dfn dc (map of_datetime dates));
      [| eapply nth_error_In; eauto | now rewrite length_map].
    simpl. fold rows1. fold dfn1.
    rewrite (getitem_at dfn1 nc j Hj). simpl. rewrite Hcol1, Hnavs. simpl.
    rewrite (setitem_existing dfn1 nc (map VFloat navs));
      [| simpl; eapply nth_error_In; eauto | rewrite length_map; congruence].
    reflexivity.
  - simpl. unfold rows1.
    apply (two_columns_written (columns dfn) dc nc i j Hne Hi' Hj'); auto.
    + rewrite length_map. exact Hld.
    + rewrite length_map. exact Hln.
Qed.

Lemma latest_row_spec (dfn : DataFrame) (dc nc : string) (i j : nat)
    (dates : list (option Timestamp)) (navs : list spec_float) :
  positions dc (columns dfn) = [i] -> positions nc (columns dfn) = [j] ->
  map (fun r => (cell i r, cell j r)) (rows dfn)
  = combine (map of_datetime dates) (map VFloat navs) ->
  valid_pairs dates navs <> [] ->
  exists t x,
    In (t, x) (valid_pairs dates navs) /\
    (forall t' x', In (t', x') (valid_pairs dates navs) -> (t' <= t)%Z) /\
    latest_row dfn dc nc = Ok (Some (strftime_date t), Some x).
Proof.
  intros Hi Hj Hrows Hne.
  set (keep := fun r : row => forallb (fun k => negb (isna (cell k r))) [i; j]).
  set (kept := filter keep (rows dfn)).
  set (sorted := fold_left (fun a r => insert_row i r a) kept []).
  assert (Hframe : sort_values dc (dropna [dc; nc] dfn)
                   = {| columns := columns dfn; rows := sorted |}).
  { unfold sort_values, dropna. simpl. rewrite Hi, Hj. reflexivity. }
  assert (Hin_kept : forall t x, In (t, x) (valid_pairs dates navs) ->
            exists r, In r kept /\ cell i r = VTime t /\ cell j r = VFloat x).
  { intros t x H. apply valid_pairs_spec in H as [Hin Hna].
    assert (H : In (of_datetime (Some t), VFloat x)
                   (combine (map of_datetime dates) (map VFloat navs))).
    { rewrite combine_map2. apply in_map_iff. exists (Some t, x). now split. }
    rewrite <- Hrows in H. apply in_map_iff in H as [r [Hr Hin']].
    injection Hr as Hci Hcj. exists r. split; [| now split].
    apply filter_In. split; [exact Hin' |].
    unfold keep. simpl. rewrite Hci, Hcj. simpl in *. now rewrite Hna. }
  assert (Hkept_valid : forall r, In r kept ->
            exists t x, cell i r = VTime t /\ cell j r = VFloat x /\
                        In (t, x) (valid_pairs dates navs)).
  { intros r Hr. apply filter_In in Hr as [Hr Hk].
    assert (H : In (cell i r, cell j r) (map (fun r => (cell i r, cell j r)) (rows dfn)))
      by (apply in_map_iff; now exists r).
    rewrite Hrows, combine_map2 in H. apply in_map_iff in H as [[d x] [Heq Hin]].
    simpl in Heq. injection Heq as Hci Hcj.
    unfold keep in Hk. cbn [forallb] in Hk. rewrite <- Hci, <- Hcj in Hk.
    apply andb_prop in Hk as [Hk1 Hk2]. apply andb_prop in Hk2 as [Hk2 _].
    apply negb_true_iff in Hk1, Hk2.
    destruct d as [t |]; [| discriminate]. exists t, x. repeat split; auto.
    apply valid_pairs_spec. now split. }
  destruct (insertion_sort_spec i kept [] (SSorted_nil _)) as [Hsorted Hperm].
  fold sorted in Hsorted, Hperm. simpl in Hperm.
  destruct (valid_pairs dates navs) as [|[t0 x0] rest] eqn:Ev; [contradiction |].
  destruct (Hin_kept t0 x0 (or_introl eq_refl)) as [r0 [Hr0 _]].
  destruct sorted as [|r1 more] eqn:Es.
  { exfalso. apply (Permutation_in r0 (Permutation_sym Hperm)) in Hr0. exact Hr0. }
  assert (Hlast : In (last more r1) kept)
    by (apply (Permutation_in _ Hperm), last_In).
  destruct (Hkept_valid _ Hlast) as [t [x [Hci [Hcj Hv]]]].
  exists t, x. split; [exact Hv | split].
  - intros t' x' H'. destruct (Hin_kept t' x' H') as [r' [Hr' [Hci' _]]].
    apply (Permutation_in _ (Permutation_sym Hperm)) in Hr'.
    pose proof (sorted_last_max i r1 more Hsorted r' Hr') as Hle.
    unfold key_le in Hle. rewrite Hci', Hci in Hle. exact Hle.
  - unfold latest_row. rewrite Hframe. unfold len, iloc_last, row_get. simpl.
    rewrite Hi, Hj. simpl. rewrite Hci. simpl. rewrite Hcj. reflexivity.
Qed.

(** C1: when the series of a symbol holds rows that parse to (date, value)
    pairs, [fetch_latest_nav] returns one of these pairs, and no valid row
    has a later date: the answer is the row of greatest date, wherever it
    stands in the series.  The date is printed as year-month-day: ten
    characters with a dash after the year and after the month. *)
Theorem fetch_latest_nav_max_date (symbol : value) (dfn : DataFrame) (dc nc : string)
    (sd sn : list value) (dates : list (option Timestamp)) (navs : list spec_float) :
  fund_open_fund_info_em ak symbol = Returns (Some dfn) ->
  wf_frame dfn = true ->
  column_or dfn "净值日期" 0 = Ok dc ->
  column_or dfn "单位净值" 1 = Ok nc ->
  dc <> nc ->
  getitem dfn dc = Ok sd -> getitem dfn nc = Ok sn ->
  to_datetime pd sd = Returns dates -> to_numeric pd sn = Returns navs ->
  List.length dates = len dfn -> List.length navs = len dfn ->
  valid_pairs dates navs <> [] ->
  exists t x,
    In (t, x) (valid_pairs dates navs) /\
    (forall t' x', In (t', x') (valid_pairs dates navs) -> (t' <= t)%Z) /\
    fetch_latest_nav ak pd symbol = (Some (strftime_date t), Some x) /\
    String.length (strftime_date t) = 10%nat /\
    String.get 4 (strftime_date t) = Some "-"%char /\
    String.get 7 (strftime_date t) = Some "-"%char.
Proof.
  intros Hresp Hwf Hdc Hnc Hne Hsd Hsn Hdates Hnavs Hld Hln Hvalid.
  destruct (coerce_series_spec dfn dc nc sd sn dates navs Hwf Hdc Hnc Hne Hsd Hsn
              Hdates Hnavs Hld Hln) as [dfn' [i [j [Hco [Hi [Hj Hrows]]]]]].
  destruct (latest_row_spec dfn' dc nc i j dates navs Hi Hj Hrows Hvalid)
    as [t [x [Hin [Hmax Hlatest]]]].
  exists t, x. split; [exact Hin | split; [exact Hmax |]].
  split; [| apply strftime_date_shape].
  unfold fetch_latest_nav, fetch_latest_nav_try. rewrite Hresp. simpl.
  destruct (len dfn =? 0)%nat eqn:El.
  - exfalso. apply Nat.eqb_eq in El. apply Hvalid. unfold valid_pairs.
    rewrite El in Hld. destruct dates; [reflexivity | discriminate].
  - rewrite Hco. simpl. rewrite Hlatest. reflexivity.
Qed.

End Nav.

(** ** Renaming columns *)

Lemma dict_get_set (d : dict) (k v c : string) :
  dict_get (dict_set d k v) c = if String.eqb k c then Some v else dict_get d c.
Proof.
  induction d as [|[k' v'] d IH]; simpl.
  - reflexivity.
  - destruct (String.eqb_spec k' k) as [-> | Hne]; simpl.
    + now destruct (String.eqb k c).
    + rewrite IH. destruct (String.eqb_spec k' c) as [-> | _]; [| reflexivity].
      destruct (String.eqb_spec k c); [congruence | reflexivity].
Qed.

Lemma build_rename_map_get (cols : list string) (m : dict) (c : string) :
  dict_get (build_rename_map cols m) c
  = if mem c cols
    then match canonical c with Some c' => Some c' | None => dict_get m c end
    else dict_get m c.
Proof.
  revert m. induction cols as [|c0 cols IH]; intros m; simpl; [reflexivity |].
  rewrite IH. destruct (String.eqb_spec c c0) as [<- | Hne]; simpl.
  - destruct (canonical c) as [c' |] eqn:Ec.
    + rewrite dict_get_set, String.eqb_refl. now destruct (mem c cols).
    + now destruct (mem c cols).
  - assert (Hget : dict_get (match canonical c0 with
                             | Some c' => dict_set m c0 c'
                             | None => m
                             end) c = dict_get m c).
    { destruct (canonical c0); [| reflexivity].
      rewrite dict_get_set. destruct (String.eqb_spec c0 c); [congruence | reflexivity]. }
    now rewrite Hget.
Qed.

(** The renaming loop and [rename] together send every label through
    [canonical]. *)
Lemma normalize_columns_columns (df : DataFrame) :
  columns (normalize_columns df)
  = map (fun c => match canonical c with Some c' => c' | None => c end) (columns df).
Proof.
  unfold normalize_columns, rename. simpl.
  apply map_ext_in. intros c Hc. rewrite build_rename_map_get.
  apply mem_In in Hc. rewrite Hc. simpl. now destruct (canonical c).
Qed.

(** ** The catalogue *)

Lemma getitem_Raise (df : DataFrame) (c : string) (e : exn) :
  getitem df c = Raise e -> e = KeyError c \/ e = TypeError.
Proof.
  unfold getitem. destruct (positions c (columns df)) as [|i [|j rest]];
    intros H; try discriminate; injection H as <-; auto.
Qed.

Lemma setitem_Raise (df : DataFrame) (c : string) (vals : list value) (e : exn) :
  setitem df c vals = Raise e -> e = ValueError.
Proof.
  unfold setitem. destruct (_ =? _)%nat; [destruct (mem c (columns df)) |];
    intros H; try discriminate; now injection H.
Qed.

Lemma find_None_iff {A : Type} (f : A -> bool) (l : list A) :
  find f l = None <-> forall x, In x l -> f x = false.
Proof.
  split; [apply find_none |].
  induction l as [|x l IH]; intros H; simpl; [reflexivity |].
  rewrite (H x (or_introl eq_refl)). apply IH. intros y Hy. apply H. now right.
Qed.

Section Catalog.

Variable ak : akshare.
Variable pd : pandas.

Lemma probe_None (names : list string) :
  probe ak names = None <-> forall name, In name names -> ak_attr ak name = None.
Proof.
  induction names as [|n names IH]; simpl.
  - split; [intros _ name [] | reflexivity].
  - destruct (ak_attr ak n) eqn:E.
    + split; [discriminate |]. intros H. rewrite (H n (or_introl eq_refl)) in E. discriminate.
    + rewrite IH. split.
      * intros H name [<- | Hin]; [exact E | now apply H].
      * intros H name Hin. apply H. now right.
Qed.

Lemma ensure_code_column_Raise (df : DataFrame) (e : exn) :
  ensure_code_column df = Raise e <->
  ~ In "基金代码" (columns df) /\
  (forall c, In c (columns df) -> contains "代码" c = false) /\
  e = RuntimeError (NoCodeColumn (columns df)).
Proof.
  unfold ensure_code_column.
  destruct (mem "基金代码" (columns df)) eqn:Em; simpl.
  - split; [discriminate |]. intros [H _]. apply mem_In in Em. contradiction.
  - apply mem_false in Em.
    destruct (find (contains "代码") (columns df)) as [code_col |] eqn:Ef.
    + split; [discriminate |]. intros [_ [H _]].
      apply find_None_iff in H. congruence.
    + split.
      * intros H. injection H as <-. repeat split; auto. now apply find_None_iff.
      * intros [_ [_ ->]]. reflexivity.
Qed.

Lemma ensure_name_column_Raise (df : DataFrame) (e : exn) :
  ensure_name_column df = Raise e -> forall why, e <> RuntimeError why.
Proof.
  unfold ensure_name_column, setitem_scalar.
  destruct (negb _); [| discriminate].
  destruct (find _ _) as [name_col |].
  - intros H why. apply bind_Raise in H as [H | [s [_ H]]].
    + apply getitem_Raise in H as [-> | ->]; discriminate.
    + apply setitem_Raise in H as ->. discriminate.
  - intros H why. apply setitem_Raise in H as ->. discriminate.
Qed.

Lemma normalize_codes_Raise (df : DataFrame) (e : exn) :
  normalize_codes pd df = Raise e -> forall why, e <> RuntimeError why.
Proof.
  unfold normalize_codes. intros H why.
  apply bind_Raise in H as [H | [s [_ H]]].
  - apply getitem_Raise in H as [-> | ->]; discriminate.
  - apply bind_Raise in H as [H | [df' [_ H]]]; [| discriminate].
    apply setitem_Raise in H as ->. discriminate.
Qed.

(** C3: [get_fund_list] raises its configuration error in exactly two
    situations: the provider module has none of the candidate functions;
    or the frame the first available one returns has, after renaming, no
    column "基金代码" and no column whose label contains "代码".  Whatever
    [get_fund_list] raises, [main] raises too: nothing catches it. *)
Theorem get_fund_list_config_error (why : config_error) :
  (get_fund_list ak pd = Raise (RuntimeError why) <->
   ((forall name, In name candidates -> ak_attr ak name = None) /\
    why = NoProviderFunction candidates) \/
   (exists df,
       probe ak candidates = Some (Returns df) /\
       ~ In "基金代码" (columns (normalize_columns df)) /\
       (forall c, In c (columns (normalize_columns df)) -> contains "代码" c = false) /\
       why = NoCodeColumn (columns (normalize_columns df)))) /\
  (forall e now, get_fund_list ak pd = Raise e -> main ak pd now = Raise e).
Proof.
  split; [| intros e now H; unfold main; now rewrite H].
  unfold get_fund_list, catalog_columns. split.
  - destruct (probe ak candidates) as [func |] eqn:Ep.
    + intros H. right. destruct func as [df |]; simpl in H; [| discriminate].
      exists df. split; [reflexivity |].
      destruct (ensure_code_column (normalize_columns df)) as [df1 | e1] eqn:E1; simpl in H.
      * exfalso. destruct (ensure_name_column df1) as [df2 | e2] eqn:E2; simpl in H.
        -- exact (normalize_codes_Raise _ _ H why eq_refl).
        -- injection H as ->. exact (ensure_name_column_Raise _ _ E2 why eq_refl).
      * injection H as ->. apply ensure_code_column_Raise in E1 as [Hno [Hnone Hwhy]].
        injection Hwhy as ->. auto.
    + intros H. left. injection H as <-. split; [| reflexivity].
      now apply probe_None.
  - intros [[Hnone ->] | [df [Hp [Hno [Hnone ->]]]]].
    + apply probe_None in Hnone. rewrite Hnone. reflexivity.
    + rewrite Hp. simpl.
      assert (E : ensure_code_column (normalize_columns df)
                  = Raise (RuntimeError (NoCodeColumn (columns (normalize_columns df)))))
        by (apply ensure_code_column_Raise; auto).
      rewrite E. reflexivity.
Qed.

Lemma canonical_columns_NoDup : NoDup canonical_columns.
Proof.
  unfold canonical_columns.
  repeat (apply NoDup_cons; [simpl; intuition discriminate |]).
  apply NoDup_nil.
Qed.

Lemma keep_columns_wf (df : DataFrame) : wf_frame (keep_columns df) = true.
Proof. apply select_wf. Qed.

Lemma keep_columns_incl (df : DataFrame) :
  incl (columns (keep_columns df)) canonical_columns.
Proof.
  intros c Hc. apply select_incl in Hc. apply filter_In in Hc. tauto.
Qed.

Lemma catalog_columns_Ok (df : DataFrame) :
  catalog_columns ak = Ok df ->
  wf_frame df = true /\ incl (columns df) canonical_columns.
Proof.
  unfold catalog_columns. destruct (probe ak candidates); [| discriminate].
  intros H. bind_inv H. bind_inv H. bind_inv H. injection H as <-.
  split; [apply keep_columns_wf | apply keep_columns_incl].
Qed.

(** Lines 81-82 on a well-formed frame with one identifier column at [p]. *)
Lemma normalize_codes_spec (df out : DataFrame) :
  wf_frame df = true ->
  normalize_codes pd df = Ok out ->
  exists p norm,
    positions "基金代码" (columns df) = [p] /\
    setitem df "基金代码" (map (normalized_code pd) (map (cell p) (rows df))) = Ok norm /\
    columns norm = columns df /\
    Forall2 (fun r r' => cell p r' = normalized_code pd (cell p r) /\
                         List.length r' = List.length r /\
                         forall k, k <> p -> cell k r' = cell k r)
            (rows df) (rows norm) /\
    out = {| columns := columns df; rows := drop_dups p [] (rows norm) |}.
Proof.
  intros Hwf H. unfold normalize_codes in H.
  apply bind_Ok in H as [s [Hs H]]. apply getitem_Ok in Hs as [p [Hp ->]].
  apply bind_Ok in H as [norm [Hstep H]]. injection H as <-.
  assert (Hin : nth_error (columns df) p = Some "基金代码")
    by (apply positions_spec; rewrite Hp; now left).
  rewrite map_map in Hstep.
  rewrite setitem_existing in Hstep;
    [| eapply nth_error_In; eauto | now rewrite length_map].
  injection Hstep as <-. simpl.
  exists p. eexists. split; [exact Hp |]. split.
  { rewrite map_map. rewrite setitem_existing;
      [reflexivity | eapply nth_error_In; eauto | now rewrite length_map]. }
  split; [reflexivity |]. split.
  - simpl. rewrite combine_map_self. simpl.
    apply wf_frame_spec in Hwf. revert Hwf. generalize (rows df) as rs.
    induction rs as [|r rs IH]; intros Hw; simpl; constructor.
    + inversion Hw as [|? ? Hr _]; subst. split; [| split].
      * rewrite (cell_set_cells _ _ _ _ _ _ Hr Hin), String.eqb_refl. reflexivity.
      * apply set_cells_length.
      * intros k Hk.
        destruct (nth_error (columns df) k) as [l |] eqn:El.
        -- rewrite (cell_set_cells _ _ _ _ _ _ Hr El).
           destruct (String.eqb_spec l "基金代码") as [-> | _]; [| reflexivity].
           exfalso. apply Hk.
           assert (Hkp : In k (positions "基金代码" (columns df)))
             by now apply positions_spec.
           rewrite Hp in Hkp. destruct Hkp as [<- | []]. reflexivity.
        -- apply nth_error_None in El. unfold cell.
           rewrite !nth_overflow; [reflexivity | lia |].
           rewrite set_cells_length. lia.
    + apply IH. now inversion Hw.
  - unfold drop_duplicates. simpl. rewrite Hp. reflexivity.
Qed.

Lemma get_fund_list_Ok (out : DataFrame) :
  get_fund_list ak pd = Ok out ->
  exists p, positions "基金代码" (columns out) = [p] /\
            wf_frame out = true /\ incl (columns out) canonical_columns.
Proof.
  unfold get_fund_list. intros H. apply bind_Ok in H as [df [Hdf H]].
  apply catalog_columns_Ok in Hdf as [Hwf Hincl].
  destruct (normalize_codes_spec df out Hwf H) as [p [norm [Hp [_ [_ [Hrows ->]]]]]].
  exists p. simpl. split; [exact Hp | split; [| exact Hincl]].
  apply wf_frame_spec. simpl. apply Forall_forall. intros r Hr.
  apply drop_dups_In in Hr as [Hr _].
  apply wf_frame_spec in Hwf.
  revert Hwf Hr. clear -Hrows. generalize (columns df) as cols. intros cols.
  induction Hrows as [|r0 r' rs rs' [_ [Hlen _]] _ IH]; intros Hwf; [intros [] |].
  inversion Hwf as [|? ? Hr0 Hrs]; subst.
  intros [<- | Hr]; [lia | now apply IH].
Qed.

(** C5, as the code has it: the identifier column of the table
    [get_fund_list] returns holds strings, each the provider's cell rendered
    as text and filled with zeros on the left up to six characters (a longer
    text is kept whole, so the width is six or more); no identifier occurs
    twice; every identifier of the catalogue is still there; and the row
    kept for an identifier is the first row that carries it. *)
Theorem get_fund_list_identifiers (out : DataFrame) :
  get_fund_list ak pd = Ok out ->
  exists df p norm,
    catalog_columns ak = Ok df /\
    positions "基金代码" (columns df) = [p] /\
    setitem df "基金代码" (map (normalized_code pd) (map (cell p) (rows df))) = Ok norm /\
    getitem out "基金代码" = Ok (map (cell p) (rows out)) /\
    Forall (fun r => exists r0,
                In r0 (rows df) /\
                cell p r = VStr (zfill 6 (astype_str pd (cell p r0))) /\
                char_length (zfill 6 (astype_str pd (cell p r0)))
                = Nat.max 6 (char_length (astype_str pd (cell p r0))))
           (rows out) /\
    NoDup (map (cell p) (rows out)) /\
    (forall r0, In r0 (rows df) ->
                In (normalized_code pd (cell p r0)) (map (cell p) (rows out))) /\
    (forall r, In r (rows out) ->
               exists before after,
                 rows norm = before ++ r :: after /\
                 forall r', In r' before -> cell p r' <> cell p r).
Proof.
  unfold get_fund_list. intros H. apply bind_Ok in H as [df [Hdf H]].
  pose proof (catalog_columns_Ok df Hdf) as [Hwf _].
  destruct (normalize_codes_spec df out Hwf H) as [p [norm [Hp [Hset [_ [Hrows ->]]]]]].
  exists df, p, norm. simpl.
  assert (Hnorm : forall r, In r (rows norm) ->
            exists r0, In r0 (rows df) /\ cell p r = normalized_code pd (cell p r0)).
  { clear -Hrows. induction Hrows as [|r0 r' rs rs' [Hc _] _ IH]; [intros r [] |].
    intros r [<- | Hr].
    - exists r0. split; [now left | exact Hc].
    - destruct (IH r Hr) as [r1 [H1 H2]]. exists r1. split; [now right | exact H2]. }
  assert (Hraw : forall r0, In r0 (rows df) ->
            exists r, In r (rows norm) /\ cell p r = normalized_code pd (cell p r0)).
  { clear -Hrows. induction Hrows as [|r0 r' rs rs' [Hc _] _ IH]; [intros r [] |].
    intros r [<- | Hr].
    - exists r'. split; [now left | exact Hc].
    - destruct (IH r Hr) as [r1 [H1 H2]]. exists r1. split; [now right | exact H2]. }
  repeat split.
  - exact Hdf.
  - exact Hp.
  - exact Hset.
  - apply getitem_at. exact Hp.
  - apply Forall_forall. intros r Hr. apply drop_dups_In in Hr as [Hr _].
    destruct (Hnorm r Hr) as [r0 [Hr0 Hc]]. exists r0.
    split; [exact Hr0 | split; [exact Hc | apply zfill_length]].
  - apply drop_dups_NoDup.
  - intros r0 Hr0. destruct (Hraw r0 Hr0) as [r [Hr Hc]]. rewrite <- Hc.
    destruct (drop_dups_complete p [] (rows norm) r Hr) as [[] | H']. exact H'.
  - intros r Hr. eapply drop_dups_first; eauto.
Qed.

End Catalog.

(** C5, as the specification words it, fails: identifiers do not share one
    width.  A catalogue with the identifiers "000001" and "1234567" comes
    back with both, six and seven characters long. *)
Lemma identifier_width_not_fixed :
  ~ exists width,
      forall (ak : akshare) (pd : pandas) (out : DataFrame) (ids : list value) (s : string),
        get_fund_list ak pd = Ok out ->
        getitem out "基金代码" = Ok ids ->
        In (VStr s) ids ->
        char_length s = width.
Proof.
  intros [width H].
  pose (out := {| columns := ["基金代码"; "基金名称"];
                  rows := [ [VStr "000001"; VStr "华夏成长混合"];
                            [VStr "1234567"; VStr "七位代码"] ] |}).
  assert (Hrun : get_fund_list (Demo.ak_with Demo.catalog_long_code) Demo.pd = Ok out)
    by (vm_compute; reflexivity).
  assert (Hids : getitem out "基金代码" = Ok [VStr "000001"; VStr "1234567"])
    by (vm_compute; reflexivity).
  pose proof (H _ _ _ _ "000001" Hrun Hids (or_introl eq_refl)) as H6.
  pose proof (H _ _ _ _ "1234567" Hrun Hids (or_intror (or_introl eq_refl))) as H7.
  simpl in H6, H7. congruence.
Qed.

(** ** Column labels of the catalogue *)

Lemma alternate_canonical (alt canon : string) :
  In (alt, canon) alternate_spellings ->
  canonical alt = Some canon /\ In canon canonical_columns /\
  (canon = "基金代码" \/ contains "代码" canon = false).
Proof.
  unfold alternate_spellings. simpl.
  intros H. repeat (destruct H as [H | H]; [injection H as <- <-; vm_compute; intuition congruence |]).
  destruct H.
Qed.

Lemma rename_one_keeps (code_col : string) (df : DataFrame) (c : string) :
  c <> code_col -> In c (columns df) ->
  In c (columns (rename [(code_col, "基金代码")] df)).
Proof.
  intros Hne Hin. unfold rename. simpl. apply in_map_iff. exists c.
  split; [| exact Hin]. destruct (String.eqb_spec code_col c); [congruence | reflexivity].
Qed.

Lemma ensure_code_column_keeps (df df' : DataFrame) (c : string) :
  ensure_code_column df = Ok df' ->
  c = "基金代码" \/ contains "代码" c = false ->
  In c (columns df) -> In c (columns df').
Proof.
  unfold ensure_code_column. destruct (mem "基金代码" (columns df)) eqn:Em; simpl.
  - intros H _ Hin. now injection H as <-.
  - destruct (find (contains "代码") (columns df)) as [code_col |] eqn:Ef; [| discriminate].
    intros H Hc Hin. injection H as <-.
    apply find_some in Ef as [Hcode Hcontains].
    destruct Hc as [-> | Hc].
    + apply mem_false in Em. contradiction.
    + apply rename_one_keeps; [congruence | exact Hin].
Qed.

Lemma ensure_name_column_keeps (df df' : DataFrame) (c : string) :
  ensure_name_column df = Ok df' -> In c (columns df) -> In c (columns df').
Proof.
  unfold ensure_name_column, setitem_scalar.
  assert (Hset : forall vals, setitem df "基金名称" vals = Ok df' ->
                              In c (columns df) -> In c (columns df')).
  { intros vals. unfold setitem. destruct (_ =? _)%nat; [| discriminate].
    destruct (mem "基金名称" (columns df)); intros H Hin; injection H as <-; simpl; auto.
    apply in_or_app. now left. }
  destruct (negb _).
  - destruct (find _ _) as [name_col |].
    + intros H. apply bind_Ok in H as [s [_ H]]. eapply Hset; eauto.
    + apply Hset.
  - intros H. now injection H as <-.
Qed.

Lemma keep_columns_keeps (df : DataFrame) (c : string) :
  In c canonical_columns -> In c (columns df) -> In c (columns (keep_columns df)).
Proof.
  intros Hcanon Hin. unfold keep_columns. rewrite select_columns.
  apply in_flat_map. exists c. split.
  - apply filter_In. split; [exact Hcanon | now apply mem_In].
  - destruct (positions c (columns df)) as [|k ks] eqn:E.
    + apply positions_nil in E. contradiction.
    + now left.
Qed.

Lemma normalize_codes_columns (pd : pandas) (df out : DataFrame) :
  normalize_codes pd df = Ok out -> columns out = columns df.
Proof.
  unfold normalize_codes. intros H.
  apply bind_Ok in H as [s [Hs H]]. apply bind_Ok in H as [norm [Hn H]].
  injection H as <-.
  assert (Hcols : columns norm = columns df).
  { apply getitem_Ok in Hs as [p [Hp _]].
    unfold setitem in Hn. destruct (_ =? _)%nat; [| discriminate].
    destruct (mem "基金代码" (columns df)) eqn:Em.
    - now injection Hn as <-.
    - exfalso. apply mem_false in Em. apply positions_nil in Em. congruence. }
  unfold drop_duplicates. destruct (positions _ _); simpl; congruence.
Qed.

Section CatalogColumns.

Variable ak : akshare.
Variable pd : pandas.

(** C6: a column of the provider's frame that carries one of the alternate
    spellings carries the canonical label after the renaming step, at the
    same place and with the same cells; and the table [get_fund_list]
    returns for that frame has a column of the canonical label. *)
Theorem normalize_columns_alternate (df : DataFrame) (alt canon : string) (k : nat) :
  In (alt, canon) alternate_spellings ->
  nth_error (columns df) k = Some alt ->
  nth_error (columns (normalize_columns df)) k = Some canon /\
  rows (normalize_columns df) = rows df /\
  (forall out, probe ak candidates = Some (Returns df) ->
               get_fund_list ak pd = Ok out ->
               In canon (columns out)).
Proof.
  intros Halt Hk. destruct (alternate_canonical alt canon Halt) as [Hc [Hcanon Hcode]].
  assert (Hnorm : nth_error (columns (normalize_columns df)) k = Some canon).
  { rewrite normalize_columns_columns, nth_error_map, Hk. simpl. now rewrite Hc. }
  split; [exact Hnorm | split; [reflexivity |]].
  intros out Hp H. unfold get_fund_list, catalog_columns in H. rewrite Hp in H.
  simpl in H. apply bind_Ok in H as [df3 [H3 H]].
  apply bind_Ok in H3 as [df1 [H1 H3]]. apply bind_Ok in H3 as [df2 [H2 H3]].
  injection H3 as <-.
  rewrite (normalize_codes_columns pd _ _ H).
  apply keep_columns_keeps; [exact Hcanon |].
  eapply ensure_name_column_keeps; [exact H2 |].
  eapply ensure_code_column_keeps; [exact H1 | exact Hcode |].
  eapply nth_error_In; eauto.
Qed.

Lemma normalize_codes_total (df : DataFrame) (p : nat) :
  positions "基金代码" (columns df) = [p] ->
  exists out, normalize_codes pd df = Ok out.
Proof.
  intros Hp. unfold normalize_codes. rewrite (getitem_at df _ p Hp). simpl.
  rewrite setitem_existing.
  - simpl. eauto.
  - assert (Hin : In p (positions "基金代码" (columns df))) by (rewrite Hp; now left).
    apply positions_spec in Hin. eapply nth_error_In; eauto.
  - unfold len. now rewrite !length_map.
Qed.

Lemma ensure_code_column_wf (df df' : DataFrame) :
  ensure_code_column df = Ok df' -> wf_frame df = true -> wf_frame df' = true.
Proof.
  unfold ensure_code_column. destruct (negb _).
  - destruct (find _ _); [| discriminate]. intros H. injection H as <-.
    unfold wf_frame, rename. simpl. now rewrite length_map.
  - intros H. now injection H as <-.
Qed.

Lemma normalize_columns_wf (df : DataFrame) :
  wf_frame df = true -> wf_frame (normalize_columns df) = true.
Proof.
  unfold wf_frame, normalize_columns, rename. simpl. now rewrite length_map.
Qed.

Lemma combine_repeat {A B C : Type} (h : A * B -> C) (v : B) (l : list A) :
  map h (combine l (repeat v (List.length l))) = map (fun x => h (x, v)) l.
Proof. induction l as [|a l IH]; simpl; [reflexivity | now rewrite IH]. Qed.

(** Lines 74-76 when no label reads like a name: a column "基金名称" of
    empty strings is appended. *)
Lemma ensure_name_column_default (df : DataFrame) :
  ~ In "基金名称" (columns df) ->
  (forall c, In c (columns df) -> contains "简称" c = false /\ contains "名称" c = false) ->
  ensure_name_column df
  = Ok {| columns := columns df ++ ["基金名称"];
          rows := map (fun r => r ++ [VStr ""]) (rows df) |}.
Proof.
  intros Hno Hnone. unfold ensure_name_column.
  apply mem_false in Hno. rewrite Hno. simpl.
  assert (Hfind : find (fun c => contains "简称" c || contains "名称" c) (columns df) = None).
  { apply find_None_iff. intros c Hc. destruct (Hnone c Hc) as [-> ->]. reflexivity. }
  rewrite Hfind. unfold setitem_scalar.
  rewrite setitem_fresh; [| now apply mem_false | apply repeat_length].
  unfold len. now rewrite combine_repeat.
Qed.

(** C4, as the code has it: a catalogue in which no name column can be
    inferred is not a configuration error.  [get_fund_list] raises no
    [RuntimeError] for it, and when the frame has one identifier column it
    returns a table whose column "基金名称" holds the empty string in
    every row. *)
Theorem get_fund_list_without_name_column (df df1 : DataFrame) :
  probe ak candidates = Some (Returns df) ->
  wf_frame df = true ->
  ensure_code_column (normalize_columns df) = Ok df1 ->
  ~ In "基金名称" (columns df1) ->
  (forall c, In c (columns df1) -> contains "简称" c = false /\ contains "名称" c = false) ->
  (forall why, get_fund_list ak pd <> Raise (RuntimeError why)) /\
  (forall p, positions "基金代码" (columns df1) = [p] ->
     exists out names,
       get_fund_list ak pd = Ok out /\
       getitem out "基金名称" = Ok names /\
       List.length names = len out /\
       Forall (fun v => v = VStr "") names).
Proof.
  intros Hprobe Hwf H1 Hno Hnone.
  pose proof (ensure_name_column_default df1 Hno Hnone) as H2.
  set (df2 := {| columns := columns df1 ++ ["基金名称"];
                 rows := map (fun r => r ++ [VStr ""]) (rows df1) |}) in *.
  assert (Hrun : get_fund_list ak pd = normalize_codes pd (keep_columns df2)).
  { unfold get_fund_list, catalog_columns. rewrite Hprobe. simpl.
    rewrite H1. simpl. rewrite H2. reflexivity. }
  split.
  - intros why H. rewrite Hrun in H.
    exact (normalize_codes_Raise pd _ _ H why eq_refl).
  - intros p Hp.
    assert (Hwf1 : wf_frame df1 = true)
      by (eapply ensure_code_column_wf; eauto using normalize_columns_wf).
    assert (Hnd : NoDup (filter (fun c => mem c (columns df2)) canonical_columns))
      by (apply NoDup_filter, canonical_columns_NoDup).
    assert (Hcode : getitem (keep_columns df2) "基金代码" = Ok (map (cell p) (rows df2))).
    { apply select_getitem; [exact Hnd | |].
      - apply filter_In. split; [simpl; tauto |]. apply mem_In. simpl.
        apply in_or_app. left.
        assert (Hin : In p (positions "基金代码" (columns df1))) by (rewrite Hp; now left).
        apply positions_spec in Hin. eapply nth_error_In; eauto.
      - simpl. rewrite positions_app_other; [exact Hp | discriminate]. }
    assert (Hname : getitem (keep_columns df2) "基金名称"
                    = Ok (map (cell (List.length (columns df1))) (rows df2))).
    { apply select_getitem; [exact Hnd | |].
      - apply filter_In. split; [simpl; tauto |]. apply mem_In. simpl.
        apply in_or_app. right. now left.
      - simpl. now apply positions_fresh. }
    apply getitem_Ok in Hcode as [p' [Hp' _]].
    apply getitem_Ok in Hname as [q [Hq Hcells]].
    destruct (normalize_codes_total (keep_columns df2) p' Hp') as [out Hout].
    destruct (normalize_codes_spec pd _ out (keep_columns_wf df2) Hout)
      as [p'' [norm [Hp'' [_ [_ [Hrows ->]]]]]].
    exists {| columns := columns (keep_columns df2); rows := drop_dups p'' [] (rows norm) |}.
    eexists. split; [now rewrite Hrun | split; [apply getitem_at; exact Hq | split]].
    + unfold len. simpl. apply length_map.
    + simpl. apply Forall_forall. intros v Hv.
      apply in_map_iff in Hv as [r [<- Hr]]. apply drop_dups_In in Hr as [Hr _].
      assert (Hqp : q <> p'').
      { intros ->. assert (Hin : In p'' (positions "基金名称" (columns (keep_columns df2))))
          by (rewrite Hq; now left).
        assert (Hin' : In p'' (positions "基金代码" (columns (keep_columns df2))))
          by (rewrite Hp''; now left).
        apply positions_spec in Hin, Hin'. congruence. }
      assert (Hall : Forall (fun r => cell q r = VStr "") (rows (keep_columns df2))).
      { apply Forall_forall. intros r0 Hr0.
        apply (in_map (cell q)) in Hr0. rewrite <- Hcells in Hr0.
        apply in_map_iff in Hr0 as [r2 [<- Hr2]].
        simpl in Hr2. apply in_map_iff in Hr2 as [r1 [<- Hr1]].
        apply wf_frame_spec in Hwf1. rewrite Forall_forall in Hwf1.
        unfold cell. rewrite <- (Hwf1 r1 Hr1). now rewrite nth_middle. }
      pose proof (Forall2_transfer _ _ _ _ _ Hrows
                    (fun a b Hab Ha => eq_trans (proj2 (proj2 Hab) q Hqp) Ha) Hall) as Hnorm.
      rewrite Forall_forall in Hnorm. now apply Hnorm.
Qed.

End CatalogColumns.

(** C4, as the specification words it, fails: a catalogue with the labels
    "基金代码" and "基金类型" only has no column a name could be inferred
    from, and [get_fund_list] returns a table for it. *)
Lemma missing_name_column_is_no_error :
  ~ forall (ak : akshare) (pd : pandas) (df df1 : DataFrame),
      probe ak candidates = Some (Returns df) ->
      ensure_code_column (normalize_columns df) = Ok df1 ->
      ~ In "基金名称" (columns df1) ->
      (forall c, In c (columns df1) -> contains "简称" c = false /\ contains "名称" c = false) ->
      exists why, get_fund_list ak pd = Raise (RuntimeError why).
Proof.
  intros H.
  destruct (H (Demo.ak_with Demo.catalog_no_name) Demo.pd Demo.catalog_no_name
              Demo.catalog_no_name) as [why Hwhy].
  - reflexivity.
  - reflexivity.
  - simpl. intuition discriminate.
  - simpl. intros c [<- | [<- | []]]; split; reflexivity.
  - vm_compute in Hwhy. discriminate.
Qed.

(** ** The run *)

Lemma combine_map_both {A B C D : Type} (h : A -> B) (g : A -> C) (k : B * C -> D)
    (l : list A) :
  map k (combine (map h l) (map g l)) = map (fun x => k (h x, g x)) l.
Proof. induction l as [|a l IH]; simpl; [reflexivity | now rewrite IH]. Qed.

Lemma enrichment_columns_fresh (cols : list string) (c : string) :
  incl cols canonical_columns -> In c enrichment_columns -> ~ In c cols.
Proof.
  intros Hincl Hc Hin. apply Hincl in Hin.
  unfold enrichment_columns, canonical_columns in *. simpl in Hc, Hin.
  repeat (destruct Hc as [<- | Hc]; [intuition discriminate |]). destruct Hc.
Qed.

Lemma positions_from_shift (c : string) (cols : list string) (s : nat) :
  positions_from s c cols = map (fun k => (s + k)%nat) (positions c cols).
Proof.
  unfold positions. revert s. induction cols as [|l cols IH]; intros s; simpl; [reflexivity |].
  rewrite (IH (S s)), (IH 1%nat).
  destruct (String.eqb l c); simpl; rewrite map_map; [rewrite Nat.add_0_r; f_equal |];
    apply map_ext; intros k; lia.
Qed.

(** Reading a column that was appended to every row. *)
Lemma getitem_appended (cols news : list string) (rs : list row) (f : row -> list value)
    (c : string) (j : nat) :
  Forall (fun r => List.length r = List.length cols) rs ->
  ~ In c cols -> positions c news = [j] ->
  getitem {| columns := cols ++ news; rows := map (fun r => r ++ f r) rs |} c
  = Ok (map (fun r => cell j (f r)) rs).
Proof.
  intros Hwf Hfresh Hj. unfold getitem, positions. simpl.
  rewrite positions_from_app. apply positions_nil in Hfresh. unfold positions in Hfresh.
  rewrite Hfresh, (positions_from_shift c news), Hj. simpl. f_equal.
  rewrite map_map. apply map_ext_in. intros r Hr.
  rewrite Forall_forall in Hwf. unfold cell. rewrite <- (Hwf r Hr).
  rewrite app_nth2; [| lia]. f_equal. lia.
Qed.

(** Reading a column that was there before others were appended. *)
Lemma getitem_kept (cols news : list string) (rs : list row) (f : row -> list value)
    (c : string) (i : nat) :
  Forall (fun r => List.length r = List.length cols) rs ->
  ~ In c news -> positions c cols = [i] ->
  getitem {| columns := cols ++ news; rows := map (fun r => r ++ f r) rs |} c
  = Ok (map (cell i) rs).
Proof.
  intros Hwf Hfresh Hi. unfold getitem, positions. simpl.
  rewrite positions_from_app, (positions_from_shift c news). fold (positions c cols).
  apply positions_nil in Hfresh. rewrite Hfresh, Hi. simpl. f_equal.
  rewrite map_map. apply map_ext_in. intros r Hr.
  rewrite Forall_forall in Hwf. unfold cell. apply app_nth1.
  rewrite (Hwf r Hr).
  assert (Hin : In i (positions c cols)) by (rewrite Hi; now left).
  apply positions_spec in Hin. apply nth_error_Some. congruence.
Qed.

Lemma map_constant {A B : Type} (v : B) (l : list A) :
  map (fun _ => v) l = repeat v (List.length l).
Proof. induction l as [|a l IH]; simpl; [reflexivity | now rewrite IH]. Qed.

Lemma Forall_firstn {A : Type} (P : A -> Prop) (n : nat) (l : list A) :
  Forall P l -> Forall P (firstn n l).
Proof.
  intros H. revert n. induction H as [|x l Hx _ IH]; intros [|n]; simpl; constructor; auto.
Qed.

Section Run.

Variable ak : akshare.
Variable pd : pandas.
Variable now : Timestamp.

Lemma enrich_loop_spec (codes : list value) (nav_dates : list (option string))
    (nav_vals : list (option spec_float)) (calls : list value) :
  enrich_loop ak pd codes nav_dates nav_vals calls
  = (nav_dates ++ map (fun c => fst (fetch_latest_nav ak pd c)) codes,
     nav_vals ++ map (fun c => snd (fetch_latest_nav ak pd c)) codes,
     calls ++ codes).
Proof.
  revert nav_dates nav_vals calls.
  induction codes as [|code codes IH]; intros nav_dates nav_vals calls; simpl.
  - now rewrite !app_nil_r.
  - destruct (fetch_latest_nav ak pd code) as [d v] eqn:E. rewrite IH. simpl.
    now rewrite <- !app_assoc.
Qed.

(** Lines 119-139 on a catalogue with one identifier column at [p] and
    canonical labels only: what is asked of the provider and what is
    written. *)
Lemma enrich_spec (df : DataFrame) (p : nat) :
  positions "基金代码" (columns df) = [p] ->
  incl (columns df) canonical_columns ->
  enrich ak pd now df
  = Ok {| requested := map (cell p) (firstn TOP_N (rows df));
          exported := {| columns := columns df ++ enrichment_columns;
                         rows := map (fun r => r ++ enrichment ak pd now
                                       (float64_column ak pd
                                          (map (cell p) (firstn TOP_N (rows df))))
                                       (cell p r))
                                     (firstn TOP_N (rows df)) |} |}.
Proof.
  intros Hp Hincl. unfold enrich.
  set (rs := firstn TOP_N (rows df)).
  assert (Hget : getitem (head TOP_N df) "基金代码" = Ok (map (cell p) rs))
    by (apply getitem_at; exact Hp).
  rewrite Hget. cbn [bind]. rewrite enrich_loop_spec. cbn [app].
  unfold float_column. fold (float64_column ak pd (map (cell p) rs)).
  generalize (float64_column ak pd (map (cell p) rs)) as float64. intros float64.
  rewrite !map_map.
  rewrite setitem_fresh;
    [| apply enrichment_columns_fresh; [exact Hincl | simpl; tauto]
     | unfold len; cbn [head rows]; now rewrite !length_map].
  cbn [bind head rows columns]. fold rs. rewrite combine_map_self.
  rewrite setitem_fresh; cbn [rows columns].
  2:{ intros H. apply in_app_or in H as [H | [H | []]]; [| discriminate].
      revert H. apply enrichment_columns_fresh; [exact Hincl | simpl; tauto]. }
  2:{ unfold len. cbn [rows]. now rewrite !length_map. }
  cbn [bind]. rewrite combine_map_both.
  unfold setitem_scalar. rewrite setitem_fresh; cbn [rows columns].
  2:{ intros H. apply in_app_or in H as [H | [H | []]]; [| discriminate].
      apply in_app_or in H as [H | [H | []]]; [| discriminate].
      revert H. apply enrichment_columns_fresh; [exact Hincl | simpl; tauto]. }
  2:{ apply repeat_length. }
  cbn [bind]. unfold len. cbn [rows]. rewrite combine_repeat, map_map.
  do 3 f_equal.
  - now rewrite <- !app_assoc.
  - apply map_ext. intros r. cbn [fst snd]. unfold enrichment.
    now rewrite <- !app_assoc.
Qed.

Lemma main_spec (df : DataFrame) :
  get_fund_list ak pd = Ok df ->
  exists p,
    positions "基金代码" (columns df) = [p] /\
    Forall (fun r => List.length r = List.length (columns df)) (rows df) /\
    incl (columns df) canonical_columns /\
    main ak pd now
    = Ok {| requested := map (cell p) (firstn TOP_N (rows df));
            exported := {| columns := columns df ++ enrichment_columns;
                           rows := map (fun r => r ++ enrichment ak pd now
                                       (float64_column ak pd
                                          (map (cell p) (firstn TOP_N (rows df))))
                                       (cell p r))
                                       (firstn TOP_N (rows df)) |} |}.
Proof.
  intros H. destruct (get_fund_list_Ok ak pd df H) as [p [Hp [Hwf Hincl]]].
  exists p. split; [exact Hp | split; [now apply wf_frame_spec | split; [exact Hincl |]]].
  unfold main. rewrite H. cbn [bind]. now apply enrich_spec.
Qed.

Lemma fetch_latest_nav_empty (code : value) (dfn : DataFrame) :
  fund_open_fund_info_em ak code = Returns (Some dfn) -> len dfn = 0%nat ->
  fetch_latest_nav ak pd code = (None, None).
Proof.
  intros Hresp Hlen. unfold fetch_latest_nav, fetch_latest_nav_try.
  rewrite Hresp. simpl. now rewrite Hlen.
Qed.

(** C7: [main] enriches the first [TOP_N] = 1000 rows of the catalogue and
    no other, in the order of the catalogue: the provider is asked about
    exactly these identifiers in that order, the exported table has
    min(1000, length of the catalogue) rows, and its two net-asset-value
    columns hold, row by row, what [fetch_latest_nav] answered, as the
    columns pandas makes of the two lists. *)
Theorem main_enriches_first_top_n (df : DataFrame) :
  get_fund_list ak pd = Ok df ->
  exists out codes,
    main ak pd now = Ok out /\
    getitem df "基金代码" = Ok codes /\
    TOP_N = 1000%nat /\
    requested out = firstn TOP_N codes /\
    len (exported out) = Nat.min TOP_N (len df) /\
    getitem (exported out) "最新净值日期"
    = Ok (map (fun c => of_date_string (fst (fetch_latest_nav ak pd c))) (firstn TOP_N codes)) /\
    getitem (exported out) "最新单位净值"
    = Ok (float_column (map (fun c => snd (fetch_latest_nav ak pd c)) (firstn TOP_N codes))).
Proof.
  intros H. destruct (main_spec df H) as [p [Hp [Hwf [Hincl Hmain]]]].
  eexists. exists (map (cell p) (rows df)).
  split; [exact Hmain |]. cbn [requested exported].
  split; [now apply getitem_at |]. split; [reflexivity |].
  split; [now rewrite firstn_map |].
  split; [unfold len; cbn [rows]; now rewrite length_map, length_firstn |].
  pose proof (Forall_firstn _ TOP_N _ Hwf) as Hwf'.
  split.
  - rewrite (getitem_appended _ _ _ _ "最新净值日期" 0 Hwf');
      [| apply enrichment_columns_fresh; [exact Hincl | simpl; tauto] | reflexivity].
    rewrite firstn_map, map_map. reflexivity.
  - rewrite (getitem_appended _ _ _ _ "最新单位净值" 1 Hwf');
      [| apply enrichment_columns_fresh; [exact Hincl | simpl; tauto] | reflexivity].
    unfold float_column, float64_column. rewrite firstn_map, !map_map. reflexivity.
Qed.

(** C8: for a catalogue of three rows of which one gets an empty series,
    the exported table has three rows, that row has [None] under
    "最新净值日期" and a missing value under "最新单位净值", and the column
    "导出时间" holds one and the same time stamp in all three rows.  The
    missing value is NaN when some fund of the three got a value, which
    makes the column a float64 column, and [None] when none did. *)
Theorem main_three_rows_one_empty (df : DataFrame) (codes : list value) (k : nat)
    (code : value) (dfn : DataFrame) :
  get_fund_list ak pd = Ok df ->
  len df = 3%nat ->
  getitem df "基金代码" = Ok codes ->
  nth_error codes k = Some code ->
  fund_open_fund_info_em ak code = Returns (Some dfn) ->
  len dfn = 0%nat ->
  exists out dates vals,
    main ak pd now = Ok out /\
    len (exported out) = 3%nat /\
    getitem (exported out) "最新净值日期" = Ok dates /\
    nth_error dates k = Some VNone /\
    getitem (exported out) "最新单位净值" = Ok vals /\
    nth_error vals k
    = Some (if float64_column ak pd codes then VFloat S754_nan else VNone) /\
    getitem (exported out) "导出时间" = Ok (repeat (VStr (strftime_datetime now)) 3).
Proof.
  intros H Hlen Hcodes Hk Hresp Hempty.
  destruct (main_spec df H) as [p [Hp [Hwf [Hincl Hmain]]]].
  rewrite (getitem_at df _ p Hp) in Hcodes. injection Hcodes as <-.
  assert (Hall : firstn TOP_N (rows df) = rows df).
  { apply firstn_all2. unfold len in Hlen. rewrite Hlen. unfold TOP_N. lia. }
  rewrite Hall in Hmain.
  pose proof (fetch_latest_nav_empty code dfn Hresp Hempty) as Hfetch.
  rewrite nth_error_map in Hk.
  destruct (nth_error (rows df) k) as [r |] eqn:Er; [| discriminate].
  simpl in Hk. injection Hk as Hcode.
  eexists. eexists. eexists.
  split; [exact Hmain |]. cbn [exported].
  split; [unfold len in *; cbn [rows]; now rewrite length_map |].
  split; [apply (getitem_appended _ _ _ _ "最新净值日期" 0 Hwf);
          [apply enrichment_columns_fresh; [exact Hincl | simpl; tauto] | reflexivity] |].
  split; [rewrite nth_error_map, Er; cbn; now rewrite Hcode, Hfetch |].
  split; [apply (getitem_appended _ _ _ _ "最新单位净值" 1 Hwf);
          [apply enrichment_columns_fresh; [exact Hincl | simpl; tauto] | reflexivity] |].
  split; [rewrite nth_error_map, Er; cbn; now rewrite Hcode, Hfetch |].
  rewrite (getitem_appended _ _ _ _ "导出时间" 2 Hwf);
    [| apply enrichment_columns_fresh; [exact Hincl | simpl; tauto] | reflexivity].
  cbn. rewrite map_constant. unfold len in Hlen. now rewrite Hlen.
Qed.

(** C10: the enrichment in [main] only appends the three columns
    "最新净值日期", "最新单位净值" and "导出时间" on the right of the
    catalogue.  The labels [get_fund_list] produced come first and in the
    same order, every exported row is the catalogue row followed by three
    cells, and a column read by its catalogue label holds the catalogue's
    values for the rows kept. *)
Theorem main_only_appends_columns (df : DataFrame) :
  get_fund_list ak pd = Ok df ->
  exists out,
    main ak pd now = Ok out /\
    columns (exported out) = columns df ++ ["最新净值日期"; "最新单位净值"; "导出时间"] /\
    Forall2 (fun r r' => exists extra,
                 r' = r ++ extra /\ List.length extra = 3%nat /\
                 List.length r = List.length (columns df))
            (firstn TOP_N (rows df)) (rows (exported out)) /\
    (forall c s, getitem df c = Ok s ->
                 getitem (exported out) c = Ok (firstn TOP_N s)).
Proof.
  intros H. destruct (main_spec df H) as [p [Hp [Hwf [Hincl Hmain]]]].
  eexists. split; [exact Hmain |]. cbn [exported columns rows].
  pose proof (Forall_firstn _ TOP_N _ Hwf) as Hwf'.
  split; [reflexivity | split].
  - apply (Forall2_map_self _ _ _ _ Hwf'). intros r Hr.
    exists (enrichment ak pd now
              (float64_column ak pd (map (cell p) (firstn TOP_N (rows df)))) (cell p r)).
    split; [reflexivity | split; [reflexivity | exact Hr]].
  - intros c s Hs. apply getitem_Ok in Hs as [i [Hi ->]].
    rewrite (getitem_kept _ _ _ _ c i Hwf'); [now rewrite firstn_map | | exact Hi].
    intros Hnew. apply (enrichment_columns_fresh (columns df) c Hincl Hnew).
    assert (Hin : In i (positions c (columns df))) by (rewrite Hi; now left).
    apply positions_spec in Hin. eapply nth_error_In; eauto.
Qed.

End Run.

(** * Further properties *)

(** ** Lists and positions, continued *)

Lemma positions_length_app (c : string) (xs ys : list string) :
  List.length (positions c (xs ++ ys))
  = (List.length (positions c xs) + List.length (positions c ys))%nat.
Proof.
  unfold positions. rewrite positions_from_app, length_app.
  rewrite (positions_from_shift c ys), length_map. reflexivity.
Qed.

Lemma positions_length_repeat (c d : string) (n : nat) :
  List.length (positions c (repeat d n)) = if String.eqb d c then n else 0%nat.
Proof.
  induction n as [|n IH]; simpl.
  - now destruct (String.eqb d c).
  - change (d :: repeat d n) with ([d] ++ repeat d n).
    rewrite positions_length_app, IH. unfold positions. simpl.
    destruct (String.eqb d c); reflexivity.
Qed.

Lemma positions_unique (c : string) (cols : list string) :
  NoDup cols -> In c cols -> exists i, positions c cols = [i].
Proof.
  intros Hnd Hin. apply in_split in Hin as [xs [ys ->]].
  apply NoDup_remove_2 in Hnd. exists (List.length xs).
  apply positions_middle; intros H; apply Hnd, in_or_app; auto.
Qed.

Lemma NoDup_map_in {A B : Type} (f : A -> B) (l : list A) :
  (forall x y, In x l -> In y l -> f x = f y -> x = y) ->
  NoDup l -> NoDup (map f l).
Proof.
  intros Hinj Hnd. induction Hnd as [|a l Ha _ IH]; simpl; constructor.
  - intros H. apply in_map_iff in H as [y [Hy Hin]].
    apply Ha. rewrite (Hinj a y); auto; [now left | now right].
  - apply IH. intros x y Hx Hy. apply Hinj; now right.
Qed.

Lemma Forall2_In_r {A B : Type} (R : A -> B -> Prop) (l : list A) (l' : list B) (b : B) :
  Forall2 R l l' -> In b l' -> exists a, In a l /\ R a b.
Proof.
  induction 1 as [|a b' l l' Hab _ IH]; intros Hin; [destruct Hin |].
  destruct Hin as [<- | Hin].
  - exists a. split; [now left | exact Hab].
  - destruct (IH Hin) as [a0 [Ha0 HR]]. exists a0. split; [now right | exact HR].
Qed.

Lemma drop_dups_length (i : nat) (seen : list value) (rs : list row) :
  (List.length (drop_dups i seen rs) <= List.length rs)%nat.
Proof.
  revert seen. induction rs as [|r rs IH]; intros seen; simpl; [lia |].
  destruct (existsb _ seen); simpl; [specialize (IH seen) | specialize (IH (cell i r :: seen))];
    lia.
Qed.

(** With distinct keys, none of them seen, nothing is dropped. *)
Lemma drop_dups_distinct (i : nat) (seen : list value) (rs : list row) :
  NoDup (map (cell i) rs) ->
  (forall r, In r rs -> ~ In (cell i r) seen) ->
  drop_dups i seen rs = rs.
Proof.
  revert seen. induction rs as [|r rs IH]; intros seen Hnd Hseen; simpl; [reflexivity |].
  inversion Hnd as [|? ? Hr Hrs]; subst.
  destruct (existsb (value_eqb (cell i r)) seen) eqn:E.
  - apply seen_spec in E. exfalso. apply (Hseen r); [now left | exact E].
  - f_equal. apply IH; [exact Hrs |].
    intros r' Hr' [Heq | Hin].
    + apply Hr. rewrite Heq. now apply in_map.
    + apply (Hseen r'); [now right | exact Hin].
Qed.

(** Writing into a column the cell it already holds changes nothing. *)
Lemma set_cells_same (c : string) (cols : list string) (r : row) (p : nat) :
  positions c cols = [p] -> List.length r = List.length cols ->
  set_cells c (cell p r) cols r = r.
Proof.
  intros Hp Hlen.
  assert (Hat : forall k l, nth_error cols k = Some l -> String.eqb l c = true -> k = p).
  { intros k l Hk Hl. apply String.eqb_eq in Hl. subst l.
    apply positions_spec in Hk. rewrite Hp in Hk. destruct Hk as [<- | []]. reflexivity. }
  clear Hp. unfold cell. revert r p Hlen Hat.
  induction cols as [|l cols IH]; intros [|x r] p Hlen Hat; simpl; try reflexivity;
    try discriminate.
  destruct (String.eqb l c) eqn:El.
  - assert (Hp0 : 0%nat = p) by (apply (Hat 0%nat l); [reflexivity | exact El]).
    subst p. simpl. f_equal.
    assert (Hnone : forall k l', nth_error cols k = Some l' -> String.eqb l' c = false).
    { intros k l' Hk. destruct (String.eqb l' c) eqn:E'; [| reflexivity].
      specialize (Hat (S k) l' Hk E'). discriminate. }
    clear -Hnone Hlen. simpl in Hlen. revert r Hlen Hnone.
    induction cols as [|l' cols IH]; intros [|y r] Hlen Hnone; simpl; try reflexivity.
    rewrite (Hnone 0%nat l' eq_refl). f_equal. apply IH; [simpl in Hlen; lia |].
    intros k l'' Hk. apply (Hnone (S k)). exact Hk.
  - f_equal. destruct p as [|p].
    + assert (Hnone : forall k l', nth_error cols k = Some l' -> String.eqb l' c = false).
      { intros k l' Hk. destruct (String.eqb l' c) eqn:E'; [| reflexivity].
        specialize (Hat (S k) l' Hk E'). discriminate. }
      clear -Hnone Hlen. simpl in Hlen. revert r Hlen Hnone. generalize x as v.
      induction cols as [|l' cols IH]; intros v [|y r] Hlen Hnone; simpl; try reflexivity.
      rewrite (Hnone 0%nat l' eq_refl). f_equal. apply IH; [simpl in Hlen; lia |].
      intros k l'' Hk. apply (Hnone (S k)). exact Hk.
    + simpl. apply IH; [simpl in Hlen; lia |].
      intros k l' Hk Hl. specialize (Hat (S k) l' Hk Hl). lia.
Qed.

Lemma zfill_long (width : nat) (s : string) :
  (width <= char_length s)%nat -> zfill width s = s.
Proof.
  intros H. unfold zfill. replace (width - char_length s)%nat with 0%nat by lia.
  simpl. destruct s as [|c rest]; [reflexivity |].
  now destruct (Ascii.eqb c "+" || Ascii.eqb c "-")%bool.
Qed.

(** ** The catalogue, continued *)

Lemma canonical_idempotent (c c' : string) :
  canonical c = Some c' -> canonical c' = Some c'.
Proof.
  unfold canonical.
  repeat match goal with
         | |- (if ?b then _ else _) = _ -> _ => destruct b
         end;
    intros H; try discriminate; injection H as <-; reflexivity.
Qed.

(** What lines 74-76 do to a frame, whichever branch is taken: labels and
    cells are kept, at most one column "基金名称" is appended, and the frame
    has a column of that label afterwards. *)
Lemma ensure_name_column_Ok (df df' : DataFrame) :
  ensure_name_column df = Ok df' ->
  exists (news : list string) (f : row -> list value),
    columns df' = columns df ++ news /\
    rows df' = map (fun r => r ++ f r) (rows df) /\
    (news = [] \/ (news = ["基金名称"] /\ ~ In "基金名称" (columns df))) /\
    In "基金名称" (columns df').
Proof.
  unfold ensure_name_column.
  destruct (mem "基金名称" (columns df)) eqn:Em; simpl.
  - intros H. injection H as <-. exists [], (fun _ => []).
    rewrite app_nil_r. split; [reflexivity | split; [| split; [now left | now apply mem_In]]].
    rewrite <- (map_id (rows df)) at 1. apply map_ext. intros r. now rewrite app_nil_r.
  - apply mem_false in Em.
    destruct (find _ (columns df)) as [name_col |].
    + intros H. apply bind_Ok in H as [s [Hs H]].
      apply getitem_Ok in Hs as [i [_ ->]].
      rewrite setitem_fresh in H; [| exact Em | unfold len; now rewrite length_map].
      injection H as <-. exists ["基金名称"], (fun r => [cell i r]). simpl.
      split; [reflexivity | split; [| split; [now right |]]].
      * now rewrite combine_map_self.
      * apply in_or_app. right. now left.
    + unfold setitem_scalar. intros H.
      rewrite setitem_fresh in H; [| exact Em | apply repeat_length].
      injection H as <-. exists ["基金名称"], (fun _ => [VStr ""]). simpl.
      split; [reflexivity | split; [| split; [now right |]]].
      * unfold len. now rewrite combine_repeat.
      * apply in_or_app. right. now left.
Qed.

Lemma ensure_code_column_rows (df df' : DataFrame) :
  ensure_code_column df = Ok df' ->
  rows df' = rows df /\ List.length (columns df') = List.length (columns df).
Proof.
  unfold ensure_code_column. destruct (negb _).
  - destruct (find _ _); [| discriminate]. intros H. injection H as <-.
    simpl. now rewrite length_map.
  - intros H. injection H as <-. auto.
Qed.

Lemma keep_columns_header (df : DataFrame) :
  columns (keep_columns df)
  = flat_map (fun c => repeat c (List.length (positions c (columns df)))) canonical_columns.
Proof.
  unfold keep_columns. rewrite select_columns.
  induction canonical_columns as [|c cs IH]; simpl; [reflexivity |].
  destruct (mem c (columns df)) eqn:Em; simpl.
  - rewrite IH, map_constant. reflexivity.
  - apply mem_false, positions_nil in Em. rewrite Em. simpl. exact IH.
Qed.

Section CatalogShape.

Variable ak : akshare.
Variable pd : pandas.

(** X1: the header of the table [get_fund_list] returns.  Its labels are
    canonical labels in canonical order, each as often as the frame carried
    it after renaming; "基金代码" comes exactly once (so it is the first
    column) and "基金名称" at least once; and the table is rectangular. *)
Theorem get_fund_list_header (out : DataFrame) :
  get_fund_list ak pd = Ok out ->
  exists n : string -> nat,
    columns out = flat_map (fun c => repeat c (n c)) canonical_columns /\
    n "基金代码" = 1%nat /\
    (1 <= n "基金名称")%nat /\
    nth_error (columns out) 0 = Some "基金代码" /\
    wf_frame out = true.
Proof.
  intros H. destruct (get_fund_list_Ok ak pd out H) as [p [Hp [Hwf _]]].
  unfold get_fund_list in H. apply bind_Ok in H as [df4 [H4 H]].
  pose proof (normalize_codes_columns pd _ _ H) as Hcols.
  unfold catalog_columns in H4. destruct (probe ak candidates); [| discriminate].
  apply bind_Ok in H4 as [df [_ H4]]. apply bind_Ok in H4 as [df2 [_ H4]].
  apply bind_Ok in H4 as [df3 [H3 H4]]. injection H4 as <-.
  apply ensure_name_column_Ok in H3 as [news [f [_ [_ [_ Hname]]]]].
  set (n := fun c => List.length (positions c (columns df3))).
  assert (Hhead : columns out = flat_map (fun c => repeat c (n c)) canonical_columns)
    by (rewrite Hcols; apply keep_columns_header).
  assert (Hone : n "基金代码" = 1%nat).
  { assert (Hl : List.length (positions "基金代码" (columns out)) = 1%nat)
      by now rewrite Hp.
    rewrite Hhead in Hl. unfold canonical_columns in Hl. simpl in Hl.
    rewrite !positions_length_app, !positions_length_repeat in Hl. simpl in Hl. lia. }
  exists n. split; [exact Hhead | split; [exact Hone | split; [| split; [| exact Hwf]]]].
  - unfold n. destruct (positions "基金名称" (columns df3)) eqn:E; [| simpl; lia].
    apply positions_nil in E. contradiction.
  - rewrite Hhead. unfold canonical_columns. simpl. rewrite Hone. reflexivity.
Qed.

(** X2: [get_fund_list] adds no row and loses rows to duplication only: the
    table has at most as many rows as the provider's frame, and it is empty
    exactly when the provider's frame is. *)
Theorem get_fund_list_row_count (df out : DataFrame) :
  probe ak candidates = Some (Returns df) ->
  get_fund_list ak pd = Ok out ->
  (len out <= len df)%nat /\ (len out = 0%nat <-> len df = 0%nat).
Proof.
  intros Hprobe H. unfold get_fund_list in H. apply bind_Ok in H as [df4 [H4 H]].
  pose proof (catalog_columns_Ok ak df4 H4) as [Hwf4 _].
  unfold catalog_columns in H4. rewrite Hprobe in H4. simpl in H4.
  apply bind_Ok in H4 as [df2 [H2 H4]]. apply bind_Ok in H4 as [df3 [H3 H4]].
  injection H4 as <-.
  apply ensure_code_column_rows in H2 as [Hrows2 _]. simpl in Hrows2.
  apply ensure_name_column_Ok in H3 as [news [f [_ [Hrows3 _]]]].
  assert (Hlen4 : len (keep_columns df3) = len df).
  { unfold len, keep_columns, select. simpl. now rewrite length_map, Hrows3, length_map, Hrows2. }
  destruct (normalize_codes_spec pd _ out Hwf4 H) as [p [norm [_ [_ [_ [Hrows ->]]]]]].
  apply Forall2_length in Hrows. unfold len in *. simpl.
  pose proof (drop_dups_length p [] (rows norm)) as Hle.
  assert (Hn : List.length (rows norm) = List.length (rows df)) by lia.
  clear Hrows Hlen4. split; [lia |].
  destruct (rows norm) as [|r rs]; simpl in *; split; intros H0; try lia; discriminate.
Qed.

End CatalogShape.

(** X3: renaming is idempotent: a frame whose labels went through the
    renaming step once is left as it is by a second pass. *)
Theorem normalize_columns_idempotent (df : DataFrame) :
  normalize_columns (normalize_columns df) = normalize_columns df.
Proof.
  assert (Hcols : columns (normalize_columns (normalize_columns df))
                  = columns (normalize_columns df)).
  { rewrite (normalize_columns_columns (normalize_columns df)).
    rewrite (normalize_columns_columns df), map_map.
    apply map_ext. intros c. destruct (canonical c) as [c' |] eqn:E.
    - now rewrite (canonical_idempotent c c' E).
    - now rewrite E. }
  unfold normalize_columns at 1. unfold rename. fold (normalize_columns df).
  change (map _ (columns (normalize_columns df)))
    with (columns (normalize_columns (normalize_columns df))).
  rewrite Hcols. destruct (normalize_columns df). reflexivity.
Qed.

Lemma probe_first (ak : akshare) (before after : list string) (name : string)
    (func : response DataFrame) :
  (forall n, In n before -> ak_attr ak n = None) ->
  ak_attr ak name = Some func ->
  probe ak (before ++ name :: after) = Some func.
Proof.
  intros Hnone Hname. induction before as [|n before IH]; simpl.
  - now rewrite Hname.
  - rewrite (Hnone n (or_introl eq_refl)). apply IH. intros m Hm. apply Hnone. now right.
Qed.

Section CatalogCalls.

Variable pd : pandas.

(** X4: the candidates are tried in the order of the list and the first one
    the module has is the one called: two provider modules that lack the
    same earlier candidates and answer alike under the first available name
    give the same catalogue, whatever they hold under later names. *)
Theorem get_fund_list_first_candidate (ak ak' : akshare) (before after : list string)
    (name : string) (func : response DataFrame) :
  candidates = before ++ name :: after ->
  (forall n, In n before -> ak_attr ak n = None /\ ak_attr ak' n = None) ->
  ak_attr ak name = Some func ->
  ak_attr ak' name = Some func ->
  get_fund_list ak pd = get_fund_list ak' pd.
Proof.
  intros Hcand Hnone Hname Hname'.
  unfold get_fund_list, catalog_columns. rewrite Hcand.
  rewrite (probe_first ak before after name func); [| intros n Hn; apply Hnone, Hn | exact Hname].
  rewrite (probe_first ak' before after name func); [| intros n Hn; apply Hnone, Hn | exact Hname'].
  reflexivity.
Qed.

Variable ak : akshare.

(** X5: a failure of the provider's catalogue call is not caught and is not
    turned into the script's own error: [get_fund_list] raises the
    library's exception exactly when the function it chose raises. *)
Theorem get_fund_list_library_error :
  get_fund_list ak pd = Raise LibraryError <-> probe ak candidates = Some Fails.
Proof.
  unfold get_fund_list, catalog_columns. split.
  - destruct (probe ak candidates) as [[df |] |]; [| reflexivity | discriminate].
    simpl. intros H. exfalso.
    destruct (ensure_code_column (normalize_columns df)) as [df2 | e2] eqn:E2; simpl in H.
    + destruct (ensure_name_column df2) as [df3 | e3] eqn:E3; simpl in H.
      * unfold normalize_codes in H.
        apply bind_Raise in H as [H | [s [_ H]]].
        -- apply getitem_Raise in H as [H | H]; discriminate.
        -- apply bind_Raise in H as [H | [d [_ H]]]; [| discriminate].
           apply setitem_Raise in H. discriminate.
      * injection H as ->. unfold ensure_name_column, setitem_scalar in E3.
        destruct (negb _); [| discriminate].
        destruct (find _ _) as [name_col |].
        -- apply bind_Raise in E3 as [H | [s [_ H]]].
           ++ apply getitem_Raise in H as [H | H]; discriminate.
           ++ apply setitem_Raise in H. discriminate.
        -- apply setitem_Raise in E3. discriminate.
    + injection H as ->. apply ensure_code_column_Raise in E2 as [_ [_ H]]. discriminate.
  - intros ->. reflexivity.
Qed.

(** X6: [get_fund_list] returns a table whenever the function it chose
    returns a frame whose labels, after renaming, are pairwise distinct and
    include "基金代码" or a label containing "代码". *)
Theorem get_fund_list_succeeds (df : DataFrame) :
  probe ak candidates = Some (Returns df) ->
  NoDup (columns (normalize_columns df)) ->
  (In "基金代码" (columns (normalize_columns df)) \/
   exists c, In c (columns (normalize_columns df)) /\ contains "代码" c = true) ->
  exists out, get_fund_list ak pd = Ok out.
Proof.
  intros Hprobe Hnd Hcode.
  remember (normalize_columns df) as df1 eqn:Edf1.
  assert (H2 : exists df2, ensure_code_column df1 = Ok df2 /\
                           NoDup (columns df2) /\ In "基金代码" (columns df2)).
  { unfold ensure_code_column. destruct (mem "基金代码" (columns df1)) eqn:Em; simpl.
    - exists df1. split; [reflexivity | split; [exact Hnd | now apply mem_In]].
    - apply mem_false in Em.
      destruct (find (contains "代码") (columns df1)) as [code_col |] eqn:Ef.
      + apply find_some in Ef as [Hin _]. eexists. split; [reflexivity |]. simpl. split.
        * apply NoDup_map_in; [| exact Hnd]. intros x y Hx Hy. simpl.
          destruct (String.eqb_spec code_col x) as [Ex | Hx'];
            destruct (String.eqb_spec code_col y) as [Ey | Hy']; intros Heq;
            [congruence | | | exact Heq];
            exfalso; apply Em; congruence.
        * apply in_map_iff. exists code_col. split; [now rewrite String.eqb_refl | exact Hin].
      + exfalso. destruct Hcode as [H | [c [Hc Hcontains]]]; [contradiction |].
        apply (find_none _ _ Ef) in Hc. congruence. }
  destruct H2 as [df2 [H2 [Hnd2 Hin2]]].
  destruct (positions_unique _ _ Hnd2 Hin2) as [kc Hkc].
  assert (H3 : exists df3, ensure_name_column df2 = Ok df3).
  { unfold ensure_name_column. destruct (mem "基金名称" (columns df2)) eqn:Em; simpl; [eauto |].
    apply mem_false in Em.
    destruct (find _ (columns df2)) as [name_col |] eqn:Ef.
    - apply find_some in Ef as [Hin _].
      destruct (positions_unique _ _ Hnd2 Hin) as [i Hi].
      rewrite (getitem_at df2 name_col i Hi). simpl.
      rewrite setitem_fresh; [eauto | exact Em | unfold len; now rewrite length_map].
    - unfold setitem_scalar.
      rewrite setitem_fresh; [eauto | exact Em | apply repeat_length]. }
  destruct H3 as [df3 H3].
  destruct (ensure_name_column_Ok df2 df3 H3) as [news [f [Hcols3 [_ [Hnews _]]]]].
  assert (Hkc3 : positions "基金代码" (columns df3) = [kc]).
  { rewrite Hcols3. destruct Hnews as [-> | [-> _]].
    - now rewrite app_nil_r.
    - rewrite positions_app_other; [exact Hkc | discriminate]. }
  assert (Hget : getitem (keep_columns df3) "基金代码" = Ok (map (cell kc) (rows df3))).
  { apply select_getitem; [apply NoDup_filter, canonical_columns_NoDup | | exact Hkc3].
    apply filter_In. split; [simpl; tauto |]. apply mem_In.
    assert (Hin : In kc (positions "基金代码" (columns df3))) by (rewrite Hkc3; now left).
    apply positions_spec in Hin. eapply nth_error_In; eauto. }
  apply getitem_Ok in Hget as [p [Hp _]].
  destruct (normalize_codes_total pd (keep_columns df3) p Hp) as [out Hout].
  exists out. unfold get_fund_list, catalog_columns. rewrite Hprobe. simpl.
  rewrite <- Edf1, H2. simpl. rewrite H3. simpl. exact Hout.
Qed.

(** X8: the returned table is a fixed point of lines 81-82: running the
    identifier normalization on it again changes neither a cell nor the
    rows kept. *)
Theorem normalize_codes_fixed_point (out : DataFrame) :
  get_fund_list ak pd = Ok out -> normalize_codes pd out = Ok out.
Proof.
  intros H. destruct (get_fund_list_Ok ak pd out H) as [p [Hp [Hwf _]]].
  unfold get_fund_list in H. apply bind_Ok in H as [df4 [H4 H]].
  pose proof (catalog_columns_Ok ak df4 H4) as [Hwf4 _].
  destruct (normalize_codes_spec pd df4 out Hwf4 H) as [p' [norm [Hp' [_ [_ [Hrows Hout]]]]]].
  assert (Hpp : p' = p).
  { rewrite Hout in Hp. simpl in Hp. rewrite Hp' in Hp. now injection Hp. }
  subst p'.
  assert (Hcode : forall r, In r (rows out) -> normalized_code pd (cell p r) = cell p r).
  { intros r Hr. rewrite Hout in Hr. simpl in Hr. apply drop_dups_In in Hr as [Hr _].
    destruct (Forall2_In_r _ _ _ _ Hrows Hr) as [r0 [_ [Hc _]]].
    rewrite Hc. unfold normalized_code at 1 3. simpl. f_equal.
    apply zfill_long. rewrite zfill_length. lia. }
  assert (Hnd : NoDup (map (cell p) (rows out)))
    by (rewrite Hout; simpl; apply drop_dups_NoDup).
  assert (Hin : In "基金代码" (columns out)).
  { assert (Hk : In p (positions "基金代码" (columns out))) by (rewrite Hp; now left).
    apply positions_spec in Hk. eapply nth_error_In; eauto. }
  unfold normalize_codes. rewrite (getitem_at out _ p Hp). simpl.
  rewrite setitem_existing; [| exact Hin | unfold len; now rewrite !length_map].
  simpl. rewrite map_map, combine_map_self. simpl.
  assert (Hsame : map (fun r => set_cells "基金代码" (VStr (zfill 6 (astype_str pd (cell p r))))
                                  (columns out) r) (rows out) = rows out).
  { rewrite <- (map_id (rows out)) at 2. apply map_ext_in. intros r Hr.
    change (VStr (zfill 6 (astype_str pd (cell p r)))) with (normalized_code pd (cell p r)).
    rewrite (Hcode r Hr). apply set_cells_same; [exact Hp |].
    apply wf_frame_spec in Hwf. rewrite Forall_forall in Hwf. now apply Hwf. }
  rewrite Hsame. unfold drop_duplicates. simpl. rewrite Hp.
  rewrite drop_dups_distinct; [| exact Hnd | intros r _ []].
  destruct out. reflexivity.
Qed.

End CatalogCalls.

Section CatalogRows.

Variable ak : akshare.
Variable pd : pandas.

(** X7: renaming and selecting columns never moves a cell to another row.
    When, after lines 47-72, "基金代码" names the one column at [kc] and
    another canonical label [K] the one column at [k], every row of the
    returned table comes from one row of the provider's frame: its
    identifier is that row's cell at [kc], zero-filled, and its cell under
    [K] is that row's cell at [k], unchanged. *)
Theorem get_fund_list_row_provenance (df df2 out : DataFrame) (K : string) (kc k : nat) :
  probe ak candidates = Some (Returns df) ->
  wf_frame df = true ->
  ensure_code_column (normalize_columns df) = Ok df2 ->
  positions "基金代码" (columns df2) = [kc] ->
  positions K (columns df2) = [k] ->
  In K canonical_columns ->
  K <> "基金代码" ->
  get_fund_list ak pd = Ok out ->
  exists p q,
    positions "基金代码" (columns out) = [p] /\
    positions K (columns out) = [q] /\
    forall r', In r' (rows out) ->
      exists r, In r (rows df) /\
                cell p r' = VStr (zfill 6 (astype_str pd (cell kc r))) /\
                cell q r' = cell k r.
Proof.
  intros Hprobe Hwf H2 Hkc Hk HK Hne H.
  unfold get_fund_list in H. apply bind_Ok in H as [df4 [H4 H]].
  pose proof (catalog_columns_Ok ak df4 H4) as [Hwf4 _].
  unfold catalog_columns in H4. rewrite Hprobe in H4. simpl in H4.
  rewrite H2 in H4. simpl in H4. apply bind_Ok in H4 as [df3 [H3 H4]].
  injection H4 as <-.
  assert (Hwf2 : wf_frame df2 = true)
    by (eapply ensure_code_column_wf; eauto using normalize_columns_wf).
  apply wf_frame_spec in Hwf2.
  destruct (ensure_code_column_rows _ _ H2) as [Hrows2 _]. simpl in Hrows2.
  destruct (ensure_name_column_Ok df2 df3 H3) as [news [f [Hcols3 [Hrows3 [Hnews _]]]]].
  assert (Hin_kc : nth_error (columns df2) kc = Some "基金代码")
    by (apply positions_spec; rewrite Hkc; now left).
  assert (Hin_k : nth_error (columns df2) k = Some K)
    by (apply positions_spec; rewrite Hk; now left).
  assert (Hpos3 : positions "基金代码" (columns df3) = [kc] /\ positions K (columns df3) = [k]).
  { rewrite Hcols3. destruct Hnews as [-> | [-> Hno]].
    - now rewrite app_nil_r.
    - rewrite !positions_app_other; [auto | | discriminate].
      intros ->. apply Hno. eapply nth_error_In; eauto. }
  destruct Hpos3 as [Hkc3 Hk3].
  assert (Hnd : NoDup (filter (fun c => mem c (columns df3)) canonical_columns))
    by (apply NoDup_filter, canonical_columns_NoDup).
  assert (Hkeep : forall c i, In c canonical_columns -> positions c (columns df3) = [i] ->
            getitem (keep_columns df3) c = Ok (map (cell i) (rows df3))).
  { intros c i Hc Hi. apply select_getitem; [exact Hnd | | exact Hi].
    apply filter_In. split; [exact Hc |]. apply mem_In.
    assert (Hin : In i (positions c (columns df3))) by (rewrite Hi; now left).
    apply positions_spec in Hin. eapply nth_error_In; eauto. }
  pose proof (Hkeep "基金代码" kc (or_introl eq_refl) Hkc3) as Hcode4.
  pose proof (Hkeep K k HK Hk3) as HK4.
  apply getitem_Ok in Hcode4 as [p [Hp Hcells_p]].
  apply getitem_Ok in HK4 as [q [Hq Hcells_q]].
  destruct (normalize_codes_spec pd _ out Hwf4 H) as [p' [norm [Hp' [_ [_ [Hrows ->]]]]]].
  rewrite Hp in Hp'. injection Hp' as <-.
  assert (Hqp : q <> p).
  { intros ->. assert (Hi : In p (positions K (columns (keep_columns df3))))
      by (rewrite Hq; now left).
    assert (Hi' : In p (positions "基金代码" (columns (keep_columns df3))))
      by (rewrite Hp; now left).
    apply positions_spec in Hi, Hi'. congruence. }
  exists p, q. simpl. split; [exact Hp | split; [exact Hq |]].
  set (proj := fun r : row => map (fun i => cell i r)
                 (flat_map (fun c => positions c (columns df3))
                    (filter (fun c => mem c (columns df3)) canonical_columns))).
  assert (Hrows4 : rows (keep_columns df3) = map proj (rows df3)) by reflexivity.
  rewrite Hrows4, map_map in Hcells_p, Hcells_q. rewrite Hrows4 in Hrows.
  intros r' Hr'. apply drop_dups_In in Hr' as [Hr' _].
  destruct (Forall2_In_r _ _ _ _ Hrows Hr') as [r4 [Hr4 [Hc [_ Hsame]]]].
  apply in_map_iff in Hr4 as [r3 [<- Hr3]].
  pose proof (ext_in_map Hcells_p r3 Hr3) as Hp3.
  pose proof (ext_in_map Hcells_q r3 Hr3) as Hq3.
  rewrite Hrows3 in Hr3. apply in_map_iff in Hr3 as [r2 [Er3 Hr2]].
  rewrite Forall_forall in Hwf2. specialize (Hwf2 r2 Hr2).
  assert (Hcell : forall i l, nth_error (columns df2) i = Some l -> cell i r3 = cell i r2).
  { intros i l Hi. rewrite <- Er3. unfold cell. apply app_nth1.
    rewrite Hwf2. apply nth_error_Some. congruence. }
  exists r2. split; [now rewrite <- Hrows2 | split].
  - rewrite Hc. unfold normalized_code. rewrite <- Hp3, (Hcell kc _ Hin_kc). reflexivity.
  - rewrite (Hsame q Hqp), <- Hq3. apply (Hcell k _ Hin_k).
Qed.

End CatalogRows.

(** ** The latest observation, continued *)

Lemma sort_values_rows (c : string) (df : DataFrame) (r : row) :
  In r (rows (sort_values c df)) -> In r (rows df).
Proof.
  unfold sort_values. destruct (positions c (columns df)) as [|i rest]; [auto |].
  simpl. intros H.
  destruct (insertion_sort_spec i (rows df) [] (SSorted_nil _)) as [_ Hperm].
  apply (Permutation_in _ Hperm) in H. exact H.
Qed.

Lemma sort_values_columns (c : string) (df : DataFrame) :
  columns (sort_values c df) = columns df.
Proof. unfold sort_values. now destruct (positions c (columns df)). Qed.

Lemma iloc_last_In (df : DataFrame) (r : row) : iloc_last df = Ok r -> In r (rows df).
Proof.
  unfold iloc_last. destruct (rows df) as [|r0 rest]; [discriminate |].
  intros H. injection H as <-. apply last_In.
Qed.

(** The value [latest_row] answers with passed [dropna]. *)
Lemma latest_row_not_nan (dfn : DataFrame) (dc nc : string) (d : string) (v : spec_float) :
  latest_row dfn dc nc = Ok (Some d, Some v) -> v <> S754_nan.
Proof.
  unfold latest_row. destruct (len _ =? 0)%nat; [discriminate |].
  intros H. apply bind_Ok in H as [r [Hlast H]].
  apply bind_Ok in H as [dv [_ H]]. apply bind_Ok in H as [date [_ H]].
  apply bind_Ok in H as [vv [Hget H]]. apply bind_Ok in H as [nav [Hfloat H]].
  injection H as _ <-.
  apply iloc_last_In, sort_values_rows in Hlast.
  unfold dropna in Hlast. simpl in Hlast. apply filter_In in Hlast as [_ Hkeep].
  unfold row_get in Hget. rewrite sort_values_columns in Hget. simpl in Hget.
  destruct (positions nc (columns dfn)) as [|j [|j' rest]] eqn:Ej; try discriminate.
  injection Hget as <-.
  rewrite forallb_forall in Hkeep.
  assert (Hj : In j (positions dc (columns dfn) ++ [j] ++ [])).
  { apply in_or_app. right. now left. }
  specialize (Hkeep j Hj).
  destruct (cell j r) as [| | | | f |]; simpl in Hfloat; try discriminate.
  injection Hfloat as <-. intros ->. discriminate.
Qed.

Section NavMore.

Variable ak : akshare.
Variable pd : pandas.

Lemma fetch_latest_nav_not_nan (symbol : value) (d : string) (v : spec_float) :
  fetch_latest_nav ak pd symbol = (Some d, Some v) -> v <> S754_nan.
Proof.
  unfold fetch_latest_nav.
  destruct (fetch_latest_nav_try ak pd symbol) as [answer | e] eqn:E; [| discriminate].
  intros ->. unfold fetch_latest_nav_try in E.
  apply bind_Ok in E as [resp [_ E]]. destruct resp as [dfn |]; [| discriminate].
  destruct (len dfn =? 0)%nat; [discriminate |].
  apply bind_Ok in E as [[[dfn' dc] nc] [_ E]].
  eapply latest_row_not_nan; eauto.
Qed.

(** X9: the value [fetch_latest_nav] returns is never NaN: a row whose value
    did not parse is never the one answered, even when its date is the
    latest. *)
Theorem fetch_latest_nav_value_is_a_number (symbol : value) (d : string) (v : spec_float) :
  fetch_latest_nav ak pd symbol = (Some d, Some v) ->
  v <> S754_nan /\ exists t : Timestamp, d = strftime_date t.
Proof.
  intros H. split; [eapply fetch_latest_nav_not_nan; eauto |].
  destruct (fetch_latest_nav_try ak pd symbol) as [answer | e] eqn:E.
  - unfold fetch_latest_nav in H. rewrite E in H. subst answer.
    apply fetch_latest_nav_try_shape in E as [E | [t [x E]]]; [discriminate |].
    injection E as -> _. now exists t.
  - unfold fetch_latest_nav in H. rewrite E in H. discriminate.
Qed.

(** X10: when one valid row is later than every other, the answer is that
    row and nothing else: its date printed as year-month-day and its
    value. *)
Theorem fetch_latest_nav_unique_latest (symbol : value) (dfn : DataFrame) (dc nc : string)
    (sd sn : list value) (dates : list (option Timestamp)) (navs : list spec_float)
    (t : Timestamp) (x : spec_float) :
  fund_open_fund_info_em ak symbol = Returns (Some dfn) ->
  wf_frame dfn = true ->
  column_or dfn "净值日期" 0 = Ok dc ->
  column_or dfn "单位净值" 1 = Ok nc ->
  dc <> nc ->
  getitem dfn dc = Ok sd -> getitem dfn nc = Ok sn ->
  to_datetime pd sd = Returns dates -> to_numeric pd sn = Returns navs ->
  List.length dates = len dfn -> List.length navs = len dfn ->
  In (t, x) (valid_pairs dates navs) ->
  (forall t' x', In (t', x') (valid_pairs dates navs) ->
                 (t', x') = (t, x) \/ (t' < t)%Z) ->
  fetch_latest_nav ak pd symbol = (Some (strftime_date t), Some x).
Proof.
  intros Hresp Hwf Hdc Hnc Hne Hsd Hsn Hdates Hnavs Hld Hln Hin Hlatest.
  destruct (coerce_series_spec pd dfn dc nc sd sn dates navs Hwf Hdc Hnc Hne Hsd Hsn
              Hdates Hnavs Hld Hln) as [dfn' [i [j [Hco [Hi [Hj Hrows]]]]]].
  assert (Hvalid : valid_pairs dates navs <> [])
    by (intros E; rewrite E in Hin; destruct Hin).
  destruct (latest_row_spec dfn' dc nc i j dates navs Hi Hj Hrows Hvalid)
    as [t0 [x0 [Hin0 [Hmax Hlatest0]]]].
  assert (E : (t0, x0) = (t, x)).
  { destruct (Hlatest t0 x0 Hin0) as [E | Hlt]; [exact E |].
    specialize (Hmax t x Hin). lia. }
  injection E as -> ->.
  unfold fetch_latest_nav, fetch_latest_nav_try. rewrite Hresp. simpl.
  destruct (len dfn =? 0)%nat eqn:El.
  - exfalso. apply Nat.eqb_eq in El. apply Hvalid. unfold valid_pairs.
    rewrite El in Hld. destruct dates; [reflexivity | discriminate].
  - rewrite Hco. simpl. rewrite Hlatest0. reflexivity.
Qed.

End NavMore.

(** ** The run, continued *)

Lemma NoDup_firstn {A : Type} (n : nat) (l : list A) : NoDup l -> NoDup (firstn n l).
Proof.
  intros H. rewrite <- (firstn_skipn n l) in H. eapply NoDup_app_remove_r; eauto.
Qed.

Lemma Forall2_maps {A B C : Type} (R : B -> C -> Prop) (f : A -> B) (g : A -> C)
    (l : list A) :
  (forall a, R (f a) (g a)) -> Forall2 R (map f l) (map g l).
Proof. intros H. induction l as [|a l IH]; simpl; constructor; auto. Qed.

Section RunMore.

Variable ak : akshare.
Variable pd : pandas.
Variable now : Timestamp.

(** The identifiers of the returned table: strings of six characters or
    more, no two alike. *)
Lemma get_fund_list_codes (df : DataFrame) (p : nat) :
  get_fund_list ak pd = Ok df ->
  positions "基金代码" (columns df) = [p] ->
  NoDup (map (cell p) (rows df)) /\
  Forall (fun v => exists s, v = VStr s /\ (6 <= char_length s)%nat) (map (cell p) (rows df)).
Proof.
  intros H Hp. unfold get_fund_list in H. apply bind_Ok in H as [df4 [H4 H]].
  pose proof (catalog_columns_Ok ak df4 H4) as [Hwf4 _].
  destruct (normalize_codes_spec pd df4 df Hwf4 H) as [p' [norm [Hp' [_ [_ [Hrows Hout]]]]]].
  assert (Hpp : p' = p).
  { rewrite Hout in Hp. simpl in Hp. rewrite Hp' in Hp. now injection Hp. }
  subst p'. rewrite Hout. simpl. split; [apply drop_dups_NoDup |].
  apply Forall_forall. intros v Hv. apply in_map_iff in Hv as [r [<- Hr]].
  apply drop_dups_In in Hr as [Hr _].
  destruct (Forall2_In_r _ _ _ _ Hrows Hr) as [r0 [_ [Hc _]]].
  rewrite Hc. eexists. split; [reflexivity |]. rewrite zfill_length. lia.
Qed.

(** What a run that ends well leaves behind, in terms of the catalogue. *)
Lemma main_Ok (out : run) :
  main ak pd now = Ok out ->
  exists df p,
    get_fund_list ak pd = Ok df /\
    positions "基金代码" (columns df) = [p] /\
    Forall (fun r => List.length r = List.length (columns df)) (rows df) /\
    incl (columns df) canonical_columns /\
    requested out = map (cell p) (firstn TOP_N (rows df)) /\
    exported out = {| columns := columns df ++ enrichment_columns;
                      rows := map (fun r => r ++ enrichment ak pd now
                                       (float64_column ak pd
                                          (map (cell p) (firstn TOP_N (rows df))))
                                       (cell p r))
                                  (firstn TOP_N (rows df)) |}.
Proof.
  intros H. destruct (get_fund_list ak pd) as [df | e] eqn:E;
    [| unfold main in H; rewrite E in H; discriminate].
  destruct (main_spec ak pd now df E) as [p [Hp [Hwf [Hincl Hmain]]]].
  exists df, p. split; [reflexivity | split; [exact Hp | split; [exact Hwf |]]].
  split; [exact Hincl |].
  assert (Hout : {| requested := map (cell p) (firstn TOP_N (rows df));
                    exported := {| columns := columns df ++ enrichment_columns;
                                   rows := map (fun r => r ++ enrichment ak pd now
                                       (float64_column ak pd
                                          (map (cell p) (firstn TOP_N (rows df))))
                                       (cell p r))
                                               (firstn TOP_N (rows df)) |} |} = out)
    by congruence.
  rewrite <- Hout. split; reflexivity.
Qed.


(** X12: what [main] asks the provider.  Every symbol passed to
    [fetch_latest_nav] is a string of six characters or more, no symbol is
    asked about twice, there are at most 1000 of them, one per exported row,
    and they are the identifier column of the exported table. *)
Theorem main_requests (out : run) :
  main ak pd now = Ok out ->
  NoDup (requested out) /\
  Forall (fun v => exists s, v = VStr s /\ (6 <= char_length s)%nat) (requested out) /\
  (List.length (requested out) <= 1000)%nat /\
  List.length (requested out) = len (exported out) /\
  getitem (exported out) "基金代码" = Ok (requested out).
Proof.
  intros H. destruct (main_Ok out H) as [df [p [Hdf [Hp [Hwf [Hincl [Hreq Hexp]]]]]]].
  rewrite Hreq, Hexp.
  destruct (get_fund_list_codes df p Hdf Hp) as [Hnd Hstr].
  rewrite <- firstn_map.
  split; [now apply NoDup_firstn | split; [now apply Forall_firstn | split; [| split]]].
  - rewrite length_firstn. change TOP_N with 1000%nat. lia.
  - unfold len. cbv beta iota delta [rows]. now rewrite firstn_map, !length_map.
  - rewrite firstn_map.
    apply getitem_kept; [now apply Forall_firstn | | exact Hp].
    unfold enrichment_columns. simpl. intuition discriminate.
Qed.

(** X13: the exported table is rectangular, with three columns more than
    the catalogue, and its column "导出时间" holds in every row the one
    time stamp of the run, printed to the second. *)
Theorem main_export_shape (out : run) :
  main ak pd now = Ok out ->
  wf_frame (exported out) = true /\
  (exists df, get_fund_list ak pd = Ok df /\
              List.length (columns (exported out)) = (List.length (columns df) + 3)%nat) /\
  getitem (exported out) "导出时间"
  = Ok (repeat (VStr (strftime_datetime now)) (len (exported out))).
Proof.
  intros H. destruct (main_Ok out H) as [df [p [Hdf [Hp [Hwf [Hincl [Hreq Hexp]]]]]]].
  rewrite Hexp.
  pose proof (Forall_firstn _ TOP_N _ Hwf) as Hwf'.
  split; [| split].
  - apply wf_frame_spec. cbv beta iota delta [rows columns]. apply Forall_forall. intros r Hr.
    apply in_map_iff in Hr as [r0 [<- Hr0]].
    rewrite Forall_forall in Hwf'. rewrite !length_app, (Hwf' r0 Hr0). reflexivity.
  - exists df. split; [exact Hdf |]. cbv beta iota delta [columns]. now rewrite length_app.
  - rewrite (getitem_appended _ _ _ _ "导出时间" 2 Hwf');
      [| apply enrichment_columns_fresh; [exact Hincl | simpl; tauto] | reflexivity].
    cbv beta iota delta [cell enrichment nth].
    rewrite map_constant. unfold len. cbv beta iota delta [rows]. now rewrite length_map.
Qed.

(** X14: in every exported row the two net-asset-value cells agree: the
    date cell is [None] and the value cell is missing ([None], or NaN in a
    float64 column), or the date cell is a date printed as year-month-day
    and the value cell a number that is not NaN. *)
Theorem main_nav_cells_agree (out : run) :
  main ak pd now = Ok out ->
  exists dates vals,
    getitem (exported out) "最新净值日期" = Ok dates /\
    getitem (exported out) "最新单位净值" = Ok vals /\
    Forall2 (fun d v =>
               (d = VNone /\ isna v = true) \/
               (exists (t : Timestamp) (f : spec_float),
                   d = VStr (strftime_date t) /\ v = VFloat f /\ f <> S754_nan))
            dates vals.
Proof.
  intros H. destruct (main_Ok out H) as [df [p [Hdf [Hp [Hwf [Hincl [Hreq Hexp]]]]]]].
  rewrite Hexp.
  pose proof (Forall_firstn _ TOP_N _ Hwf) as Hwf'.
  eexists. eexists.
  split; [apply (getitem_appended _ _ _ _ "最新净值日期" 0 Hwf');
          [apply enrichment_columns_fresh; [exact Hincl | simpl; tauto] | reflexivity] |].
  split; [apply (getitem_appended _ _ _ _ "最新单位净值" 1 Hwf');
          [apply enrichment_columns_fresh; [exact Hincl | simpl; tauto] | reflexivity] |].
  generalize (float64_column ak pd (map (cell p) (firstn TOP_N (rows df)))) as float64.
  intros float64.
  apply Forall2_maps. intros r.
  change (cell 0 (enrichment ak pd now float64 (cell p r)))
    with (of_date_string (fst (fetch_latest_nav ak pd (cell p r)))).
  change (cell 1 (enrichment ak pd now float64 (cell p r)))
    with (float_cell float64 (snd (fetch_latest_nav ak pd (cell p r)))).
  pose proof (fetch_latest_nav_not_nan ak pd (cell p r)) as Hnan.
  assert (Hshape : fetch_latest_nav ak pd (cell p r) = (None, None) \/
                   exists t x, fetch_latest_nav ak pd (cell p r)
                               = (Some (strftime_date t), Some x)).
  { unfold fetch_latest_nav.
    destruct (fetch_latest_nav_try ak pd (cell p r)) as [answer | e] eqn:Et; [| now left].
    exact (fetch_latest_nav_try_shape ak pd _ _ Et). }
  destruct Hshape as [E | [t [x E]]].
  - rewrite E. left. split; [reflexivity | now destruct float64].
  - right. exists t, x. rewrite E.
    split; [reflexivity | split; [reflexivity |]].
    exact (Hnan _ _ E).
Qed.

End RunMore.

(** ** Edge cases *)

Lemma keep_columns_count (df : DataFrame) (c : string) :
  In c canonical_columns ->
  List.length (positions c (columns (keep_columns df)))
  = List.length (positions c (columns df)).
Proof.
  intros Hc. rewrite keep_columns_header. unfold canonical_columns in *. simpl.
  rewrite !positions_length_app, !positions_length_repeat.
  simpl in Hc.
  repeat (destruct Hc as [<- | Hc]; [simpl; lia |]). destruct Hc.
Qed.

Section Edges.

Variable ak : akshare.
Variable pd : pandas.

(** X15: a series that has no column "单位净值" and fewer than two columns
    has no [dfn.columns[1]]; the [IndexError] is swallowed and the answer is
    [(None, None)], whatever the rows hold. *)
Theorem fetch_latest_nav_too_few_columns (symbol : value) (dfn : DataFrame) :
  fund_open_fund_info_em ak symbol = Returns (Some dfn) ->
  ~ In "单位净值" (columns dfn) ->
  (List.length (columns dfn) < 2)%nat ->
  fetch_latest_nav ak pd symbol = (None, None).
Proof.
  intros Hresp Hno Hfew. unfold fetch_latest_nav, fetch_latest_nav_try.
  rewrite Hresp. simpl. destruct (len dfn =? 0)%nat; [reflexivity |].
  assert (Hnav : column_or dfn "单位净值" 1 = Raise IndexError).
  { unfold column_or. apply mem_false in Hno. rewrite Hno.
    destruct (nth_error (columns dfn) 1) eqn:E; [| reflexivity].
    assert (nth_error (columns dfn) 1 <> None) by congruence.
    apply nth_error_Some in H. lia. }
  unfold coerce_series. rewrite Hnav.
  destruct (column_or dfn "净值日期" 0); reflexivity.
Qed.

(** X16: a provider frame in which two columns end up labelled "基金代码"
    after renaming (say it carries both "基金代码" and "代码") makes
    [get_fund_list] raise, and what it raises is not the configuration
    error. *)
Theorem get_fund_list_duplicate_code_column (df : DataFrame) :
  probe ak candidates = Some (Returns df) ->
  (2 <= List.length (positions "基金代码" (columns (normalize_columns df))))%nat ->
  exists e, get_fund_list ak pd = Raise e /\ forall why, e <> RuntimeError why.
Proof.
  intros Hprobe Htwo.
  remember (normalize_columns df) as df1 eqn:Edf1.
  assert (H2 : ensure_code_column df1 = Ok df1).
  { unfold ensure_code_column. destruct (mem "基金代码" (columns df1)) eqn:Em; [reflexivity |].
    apply mem_false, positions_nil in Em. rewrite Em in Htwo. simpl in Htwo. lia. }
  assert (Hrun : get_fund_list ak pd
                 = (df3 <- ensure_name_column df1 ;; normalize_codes pd (keep_columns df3))).
  { unfold get_fund_list, catalog_columns. rewrite Hprobe. simpl.
    rewrite <- Edf1, H2. simpl. now destruct (ensure_name_column df1). }
  rewrite Hrun. destruct (ensure_name_column df1) as [df3 | e3] eqn:E3; simpl.
  - destruct (ensure_name_column_Ok df1 df3 E3) as [news [f [Hcols3 _]]].
    assert (Hcount : (2 <= List.length (positions "基金代码" (columns (keep_columns df3))))%nat).
    { rewrite keep_columns_count; [| simpl; tauto].
      rewrite Hcols3, positions_length_app. lia. }
    exists TypeError. split; [| discriminate].
    unfold normalize_codes, getitem.
    destruct (positions "基金代码" (columns (keep_columns df3))) as [|i [|j rest]];
      simpl in Hcount; try lia. reflexivity.
  - exists e3. split; [reflexivity |].
    intros why. exact (ensure_name_column_Raise df1 e3 E3 why).
Qed.

End Edges.

(** * The properties on a concrete provider *)

(** The series of "000001" is out of date order: its last row is dated
    2024-01-04, the answer is the row of 2024-01-05. *)
Lemma fetch_latest_nav_max_date_witness :
  exists t x,
    In (t, x) (valid_pairs Demo.dates_000001 Demo.navs_000001) /\
    (forall t' x', In (t', x') (valid_pairs Demo.dates_000001 Demo.navs_000001) ->
                   (t' <= t)%Z) /\
    fetch_latest_nav Demo.ak Demo.pd (VStr "000001") = (Some (strftime_date t), Some x) /\
    String.length (strftime_date t) = 10%nat /\
    String.get 4 (strftime_date t) = Some "-"%char /\
    String.get 7 (strftime_date t) = Some "-"%char.
Proof.
  apply (fetch_latest_nav_max_date Demo.ak Demo.pd (VStr "000001") Demo.series_000001
           "净值日期" "单位净值"
           (map (cell 0) (rows Demo.series_000001)) (map (cell 1) (rows Demo.series_000001))).
  all: try (vm_compute; reflexivity).
  - discriminate.
  - vm_compute. discriminate.
Defined.

Example fetch_latest_nav_not_last_row :
  fetch_latest_nav Demo.ak Demo.pd (VStr "000001") = (Some "2024-01-05", Some (Demo.fl 3 (-1))) /\
  last (rows Demo.series_000001) [] =
    [VStr "2024-01-04"; VFloat (Demo.fl 11 (-3)); VFloat (Demo.fl 1 (-1))].
Proof. split; vm_compute; reflexivity. Qed.

(** An empty series, a series without a row that parses, the answer [None],
    a series whose value column cannot be chosen and a provider call that
    raises all end in [(None, None)]. *)
Lemma fetch_latest_nav_swallows_failures_witness :
  fetch_latest_nav Demo.ak Demo.pd (VStr "000003") = (None, None) /\
  fetch_latest_nav Demo.ak Demo.pd (VStr "000005") = (None, None) /\
  fetch_latest_nav Demo.ak Demo.pd (VStr "000007") = (None, None) /\
  fetch_latest_nav Demo.ak Demo.pd (VStr "000009") = (None, None) /\
  fetch_latest_nav Demo.ak Demo.pd (VStr "999999") = (None, None).
Proof.
  split; [| split; [| split; [| split]]]; apply fetch_latest_nav_swallows_failures.
  - right. right. left. exists Demo.series_empty. split; reflexivity.
  - right. right. right. right. left.
    exists Demo.series_unparseable.
    exists {| columns := ["净值日期"; "单位净值"];
              rows := [ [VNaT; VFloat (Demo.fl 1 0)];
                        [VTime (at_date 2024 1 5); VFloat S754_nan] ] |}.
    exists "净值日期", "单位净值".
    split; [reflexivity | split; [vm_compute; reflexivity |]].
    constructor; [| constructor; [| constructor]].
    + exists 0%nat. split; [simpl; tauto | reflexivity].
    + exists 1%nat. split; [simpl; tauto | reflexivity].
  - right. left. reflexivity.
  - right. right. right. left.
    exists Demo.series_one_column, IndexError. split; reflexivity.
  - left. reflexivity.
Defined.

(** A provider without any candidate function, and one whose catalogue has
    no identifier column. *)
Lemma get_fund_list_config_error_witness :
  get_fund_list Demo.ak_old Demo.pd = Raise (RuntimeError (NoProviderFunction candidates)) /\
  get_fund_list (Demo.ak_with Demo.catalog_no_code) Demo.pd
  = Raise (RuntimeError (NoCodeColumn ["基金名称"; "基金类型"])).
Proof.
  split.
  - apply (proj1 (get_fund_list_config_error Demo.ak_old Demo.pd _)).
    left. split; [reflexivity | reflexivity].
  - apply (proj1 (get_fund_list_config_error (Demo.ak_with Demo.catalog_no_code) Demo.pd _)).
    right. exists Demo.catalog_no_code.
    split; [reflexivity | split; [| split; [| reflexivity]]].
    + vm_compute. intuition discriminate.
    + intros c Hc. vm_compute in Hc. destruct Hc as [<- | [<- | []]]; reflexivity.
Defined.

(** A catalogue without a name column comes back with empty names. *)
Lemma get_fund_list_without_name_column_witness :
  (forall why, get_fund_list (Demo.ak_with Demo.catalog_no_name) Demo.pd
               <> Raise (RuntimeError why)) /\
  exists out names,
    get_fund_list (Demo.ak_with Demo.catalog_no_name) Demo.pd = Ok out /\
    getitem out "基金名称" = Ok names /\
    List.length names = len out /\
    Forall (fun v => v = VStr "") names.
Proof.
  destruct (get_fund_list_without_name_column (Demo.ak_with Demo.catalog_no_name) Demo.pd
              Demo.catalog_no_name Demo.catalog_no_name) as [Hno Hout].
  - reflexivity.
  - reflexivity.
  - reflexivity.
  - simpl. intuition discriminate.
  - simpl. intros c [<- | [<- | []]]; split; reflexivity.
  - split; [exact Hno | apply (Hout 0%nat); reflexivity].
Defined.

Lemma get_fund_list_identifiers_witness :
  exists df p norm,
    catalog_columns Demo.ak = Ok df /\
    positions "基金代码" (columns df) = [p] /\
    setitem df "基金代码" (map (normalized_code Demo.pd) (map (cell p) (rows df))) = Ok norm /\
    getitem Demo.listing "基金代码" = Ok (map (cell p) (rows Demo.listing)) /\
    Forall (fun r => exists r0,
                In r0 (rows df) /\
                cell p r = VStr (zfill 6 (astype_str Demo.pd (cell p r0))) /\
                char_length (zfill 6 (astype_str Demo.pd (cell p r0)))
                = Nat.max 6 (char_length (astype_str Demo.pd (cell p r0))))
           (rows Demo.listing) /\
    NoDup (map (cell p) (rows Demo.listing)) /\
    (forall r0, In r0 (rows df) ->
                In (normalized_code Demo.pd (cell p r0)) (map (cell p) (rows Demo.listing))) /\
    (forall r, In r (rows Demo.listing) ->
               exists before after,
                 rows norm = before ++ r :: after /\
                 forall r', In r' before -> cell p r' <> cell p r).
Proof.
  apply (get_fund_list_identifiers Demo.ak Demo.pd Demo.listing).
  vm_compute. reflexivity.
Defined.

(** The label "简称" of the demo catalogue becomes "基金名称". *)
Lemma normalize_columns_alternate_witness :
  nth_error (columns Demo.catalog) 2 = Some "简称" /\
  nth_error (columns (normalize_columns Demo.catalog)) 2 = Some "基金名称" /\
  rows (normalize_columns Demo.catalog) = rows Demo.catalog /\
  get_fund_list Demo.ak Demo.pd = Ok Demo.listing /\
  In "基金名称" (columns Demo.listing).
Proof.
  destruct (normalize_columns_alternate Demo.ak Demo.pd Demo.catalog "简称" "基金名称" 2)
    as [Hlabel [Hrows Hout]].
  - simpl. tauto.
  - reflexivity.
  - split; [reflexivity | split; [exact Hlabel | split; [exact Hrows |]]].
    split; [vm_compute; reflexivity |].
    apply Hout; vm_compute; reflexivity.
Defined.

(** A catalogue of 1001 funds: 1000 are enriched and exported. *)
Lemma main_enriches_first_top_n_witness :
  len Demo.listing_1001 = 1001%nat /\
  exists out codes,
    main (Demo.ak_with Demo.catalog_1001) Demo.pd Demo.now = Ok out /\
    getitem Demo.listing_1001 "基金代码" = Ok codes /\
    TOP_N = 1000%nat /\
    requested out = firstn TOP_N codes /\
    len (exported out) = Nat.min TOP_N (len Demo.listing_1001) /\
    getitem (exported out) "最新净值日期"
    = Ok (map (fun c => of_date_string
                          (fst (fetch_latest_nav (Demo.ak_with Demo.catalog_1001) Demo.pd c)))
              (firstn TOP_N codes)) /\
    getitem (exported out) "最新单位净值"
    = Ok (float_column
            (map (fun c => snd (fetch_latest_nav (Demo.ak_with Demo.catalog_1001) Demo.pd c))
                 (firstn TOP_N codes))).
Proof.
  split; [vm_compute; reflexivity |].
  apply (main_enriches_first_top_n (Demo.ak_with Demo.catalog_1001) Demo.pd Demo.now
           Demo.listing_1001).
  vm_compute. reflexivity.
Defined.

(** Three funds, the second with an empty series; the first has a value,
    so the value column is a float64 column. *)
Lemma main_three_rows_one_empty_witness :
  exists out dates vals,
    main Demo.ak Demo.pd Demo.now = Ok out /\
    len (exported out) = 3%nat /\
    getitem (exported out) "最新净值日期" = Ok dates /\
    nth_error dates 1 = Some VNone /\
    getitem (exported out) "最新单位净值" = Ok vals /\
    nth_error vals 1
    = Some (if float64_column Demo.ak Demo.pd [VStr "000001"; VStr "000003"; VStr "000005"]
            then VFloat S754_nan else VNone) /\
    getitem (exported out) "导出时间" = Ok (repeat (VStr (strftime_datetime Demo.now)) 3).
Proof.
  apply (main_three_rows_one_empty Demo.ak Demo.pd Demo.now Demo.listing
           [VStr "000001"; VStr "000003"; VStr "000005"] 1 (VStr "000003") Demo.series_empty).
  all: vm_compute; reflexivity.
Defined.

(** C8, as worded: the row of the empty series does not hold [None] under
    "最新单位净值" when another fund has a value.  Of the three funds
    "000001", "000003" and "000005" the first has a net asset value and the
    second an empty series; the value column is [1.5; NaN; NaN]. *)
Lemma empty_series_value_cell_is_nan :
  ~ forall (ak : akshare) (pd : pandas) (now : Timestamp) (df : DataFrame)
           (codes : list value) (k : nat) (code : value) (dfn : DataFrame),
      get_fund_list ak pd = Ok df ->
      len df = 3%nat ->
      getitem df "基金代码" = Ok codes ->
      nth_error codes k = Some code ->
      fund_open_fund_info_em ak code = Returns (Some dfn) ->
      len dfn = 0%nat ->
      exists out dates vals,
        main ak pd now = Ok out /\
        len (exported out) = 3%nat /\
        getitem (exported out) "最新净值日期" = Ok dates /\
        nth_error dates k = Some VNone /\
        getitem (exported out) "最新单位净值" = Ok vals /\
        nth_error vals k = Some VNone /\
        getitem (exported out) "导出时间" = Ok (repeat (VStr (strftime_datetime now)) 3).
Proof.
  intros H.
  destruct (H Demo.ak Demo.pd Demo.now Demo.listing
              [VStr "000001"; VStr "000003"; VStr "000005"] 1%nat (VStr "000003")
              Demo.series_empty)
    as [out [dates [vals [Hmain [_ [_ [_ [Hvals [Hk _]]]]]]]]];
    try (vm_compute; reflexivity).
  assert (Hrun : main Demo.ak Demo.pd Demo.now = Ok Demo.finished) by (vm_compute; reflexivity).
  rewrite Hrun in Hmain. injection Hmain as <-.
  vm_compute in Hvals. injection Hvals as <-.
  discriminate Hk.
Qed.

Lemma main_only_appends_columns_witness :
  exists out,
    main Demo.ak Demo.pd Demo.now = Ok out /\
    columns (exported out)
    = columns Demo.listing ++ ["最新净值日期"; "最新单位净值"; "导出时间"] /\
    Forall2 (fun r r' => exists extra,
                 r' = r ++ extra /\ List.length extra = 3%nat /\
                 List.length r = List.length (columns Demo.listing))
            (firstn TOP_N (rows Demo.listing)) (rows (exported out)) /\
    (forall c s, getitem Demo.listing c = Ok s ->
                 getitem (exported out) c = Ok (firstn TOP_N s)).
Proof.
  apply (main_only_appends_columns Demo.ak Demo.pd Demo.now Demo.listing).
  vm_compute. reflexivity.
Defined.

(** ** The further properties on a concrete provider *)

Lemma get_fund_list_header_witness :
  exists n : string -> nat,
    columns Demo.listing = flat_map (fun c => repeat c (n c)) canonical_columns /\
    n "基金代码" = 1%nat /\
    (1 <= n "基金名称")%nat /\
    nth_error (columns Demo.listing) 0 = Some "基金代码" /\
    wf_frame Demo.listing = true.
Proof.
  apply (get_fund_list_header Demo.ak Demo.pd Demo.listing).
  vm_compute. reflexivity.
Defined.

(** Four rows in, one of them a duplicate, three rows out. *)
Lemma get_fund_list_row_count_witness :
  len Demo.catalog = 4%nat /\ len Demo.listing = 3%nat /\
  (len Demo.listing <= len Demo.catalog)%nat /\
  (len Demo.listing = 0%nat <-> len Demo.catalog = 0%nat).
Proof.
  split; [reflexivity | split; [reflexivity |]].
  apply (get_fund_list_row_count Demo.ak Demo.pd Demo.catalog Demo.listing).
  - reflexivity.
  - vm_compute. reflexivity.
Defined.

(** The newest function name is not consulted when an older one exists. *)
Lemma get_fund_list_first_candidate_witness :
  get_fund_list Demo.ak Demo.pd = get_fund_list Demo.ak_two_functions Demo.pd.
Proof.
  apply (get_fund_list_first_candidate Demo.pd Demo.ak Demo.ak_two_functions
           ["fund_name_em"] ["fund_open_fund_name_em"] "fund_em_fund_name"
           (Returns Demo.catalog)).
  - reflexivity.
  - intros n [<- | []]. split; reflexivity.
  - reflexivity.
  - reflexivity.
Defined.

Lemma get_fund_list_succeeds_witness :
  exists out, get_fund_list Demo.ak Demo.pd = Ok out.
Proof.
  apply (get_fund_list_succeeds Demo.pd Demo.ak Demo.catalog).
  - reflexivity.
  - vm_compute. repeat (apply NoDup_cons; [simpl; intuition discriminate |]). apply NoDup_nil.
  - left. vm_compute. tauto.
Defined.

(** The fund type stays with its identifier. *)
Lemma get_fund_list_row_provenance_witness :
  exists p q,
    positions "基金代码" (columns Demo.listing) = [p] /\
    positions "基金类型" (columns Demo.listing) = [q] /\
    forall r', In r' (rows Demo.listing) ->
      exists r, In r (rows Demo.catalog) /\
                cell p r' = VStr (zfill 6 (astype_str Demo.pd (cell 0 r))) /\
                cell q r' = cell 3 r.
Proof.
  apply (get_fund_list_row_provenance Demo.ak Demo.pd Demo.catalog
           (normalize_columns Demo.catalog) Demo.listing "基金类型" 0 3).
  - reflexivity.
  - reflexivity.
  - reflexivity.
  - reflexivity.
  - reflexivity.
  - simpl. tauto.
  - discriminate.
  - vm_compute. reflexivity.
Defined.

Lemma normalize_codes_fixed_point_witness :
  normalize_codes Demo.pd Demo.listing = Ok Demo.listing.
Proof.
  apply (normalize_codes_fixed_point Demo.pd Demo.ak Demo.listing).
  vm_compute. reflexivity.
Defined.

Lemma fetch_latest_nav_value_is_a_number_witness :
  Demo.fl 3 (-1) <> S754_nan /\ exists t : Timestamp, "2024-01-05" = strftime_date t.
Proof.
  apply (fetch_latest_nav_value_is_a_number Demo.ak Demo.pd (VStr "000001")).
  vm_compute. reflexivity.
Defined.

(** The row of 2024-01-05 is later than the two other valid rows. *)
Lemma fetch_latest_nav_unique_latest_witness :
  fetch_latest_nav Demo.ak Demo.pd (VStr "000001")
  = (Some (strftime_date (at_date 2024 1 5)), Some (Demo.fl 3 (-1))).
Proof.
  apply (fetch_latest_nav_unique_latest Demo.ak Demo.pd (VStr "000001") Demo.series_000001
           "净值日期" "单位净值"
           (map (cell 0) (rows Demo.series_000001)) (map (cell 1) (rows Demo.series_000001))
           Demo.dates_000001 Demo.navs_000001).
  - reflexivity.
  - reflexivity.
  - reflexivity.
  - reflexivity.
  - discriminate.
  - reflexivity.
  - reflexivity.
  - vm_compute. reflexivity.
  - reflexivity.
  - reflexivity.
  - reflexivity.
  - vm_compute. tauto.
  - intros t' x' H. vm_compute in H.
    destruct H as [H | [H | [H | []]]]; injection H as <- <-.
    + right. vm_compute. reflexivity.
    + left. vm_compute. reflexivity.
    + right. vm_compute. reflexivity.
Defined.

(** A complete run writes the table of [Demo.finished] to
    "outputs/jijinlist.xlsx", after making the directory "outputs"; where
    the file cannot be written the run fails with the writer's exception. *)
Example main_with_export_demo :
  OUT_PATH (Demo.os_with (fun _ => true)) = "outputs/jijinlist.xlsx" /\
  dirname (Demo.os_with (fun _ => true)) "outputs/jijinlist.xlsx" = "outputs" /\
  dirname (Demo.os_with (fun _ => true)) "jijinlist.xlsx" = "" /\
  main_with_export Demo.ak Demo.pd (Demo.os_with (fun _ => true)) Demo.now
  = Ok Demo.finished /\
  main_with_export Demo.ak Demo.pd (Demo.os_with (fun _ => false)) Demo.now
  = Raise LibraryError.
Proof. repeat split; vm_compute; reflexivity. Qed.

Lemma main_requests_witness :
  NoDup (requested Demo.finished) /\
  Forall (fun v => exists s, v = VStr s /\ (6 <= char_length s)%nat)
         (requested Demo.finished) /\
  (List.length (requested Demo.finished) <= 1000)%nat /\
  List.length (requested Demo.finished) = len (exported Demo.finished) /\
  getitem (exported Demo.finished) "基金代码" = Ok (requested Demo.finished).
Proof.
  apply (main_requests Demo.ak Demo.pd Demo.now Demo.finished).
  vm_compute. reflexivity.
Defined.

Lemma main_export_shape_witness :
  wf_frame (exported Demo.finished) = true /\
  (exists df, get_fund_list Demo.ak Demo.pd = Ok df /\
              List.length (columns (exported Demo.finished))
              = (List.length (columns df) + 3)%nat) /\
  getitem (exported Demo.finished) "导出时间"
  = Ok (repeat (VStr (strftime_datetime Demo.now)) (len (exported Demo.finished))).
Proof.
  apply (main_export_shape Demo.ak Demo.pd Demo.now Demo.finished).
  vm_compute. reflexivity.
Defined.

Lemma main_nav_cells_agree_witness :
  exists dates vals,
    getitem (exported Demo.finished) "最新净值日期" = Ok dates /\
    getitem (exported Demo.finished) "最新单位净值" = Ok vals /\
    Forall2 (fun d v =>
               (d = VNone /\ isna v = true) \/
               (exists (t : Timestamp) (f : spec_float),
                   d = VStr (strftime_date t) /\ v = VFloat f /\ f <> S754_nan))
            dates vals.
Proof.
  apply (main_nav_cells_agree Demo.ak Demo.pd Demo.now Demo.finished).
  vm_compute. reflexivity.
Defined.

Lemma fetch_latest_nav_too_few_columns_witness :
  fetch_latest_nav Demo.ak Demo.pd (VStr "000009") = (None, None).
Proof.
  apply (fetch_latest_nav_too_few_columns Demo.ak Demo.pd (VStr "000009")
           Demo.series_one_column).
  - reflexivity.
  - simpl. intuition discriminate.
  - simpl. lia.
Defined.

Lemma get_fund_list_duplicate_code_column_witness :
  exists e, get_fund_list (Demo.ak_with Demo.catalog_two_codes) Demo.pd = Raise e /\
            forall why, e <> RuntimeError why.
Proof.
  apply (get_fund_list_duplicate_code_column (Demo.ak_with Demo.catalog_two_codes) Demo.pd
           Demo.catalog_two_codes).
  - reflexivity.
  - vm_compute. lia.
Defined.
